(** * Advanced optimized PDF OCR converter: a shallow embedding

    This file embeds the OCR orchestration of
    [markitdown/converters/_advanced_optimized_pdf_ocr_converter.py]:
    the model performance tracker, the image quality score, the image
    segmenter, the segment recombination, the result cache, the per-model
    attempt loop, the per-page pipeline and [convert].

    Python floats are modelled by exact rationals [Q], without the rounding
    of binary floating point; Python [int] by [Z];
    Python [str] by [string] (one 8-bit character per code point, so the
    code points below 256); dicts
    keyed by strings by stdpp's [gmap]. Exceptions are modelled by an
    explicit result type, and the state the code mutates (the tracker's
    [performance_data] dict and the cache directory) is threaded through a
    small state-and-exception monad. The libraries the converter calls
    (PIL, OpenCV, pytesseract, requests, PyMuPDF) and the file operations
    on the cache, which may fail, are external collaborators: they are
    gathered in the record [Env] and every theorem quantifies over them.
    The thread pool of the parallel segment path is modelled by one of its
    schedules, the workers running one after another. *)

From Stdlib Require Import QArith Qminmax ZArith Lia Ascii String.
From Stdlib Require Import Sorting.Permutation Sorting.Sorted.
From stdpp Require Import base gmap strings list pretty.

Open Scope Z_scope.

(* ------------------------------------------------------------------ *)
(** ** Python helpers: [str.strip], [str.join], [min], [max] *)

Module Py.

(** [str.isspace] on a code point below 256: \t \n \v \f \r, the
    separators \x1c-\x1f, the space, NEL (\x85) and NO-BREAK SPACE
    (\xa0). *)
Definition is_space (c : ascii) : bool :=
  let n := nat_of_ascii c in
  ((9 <=? n) && (n <=? 13))%nat || ((28 <=? n) && (n <=? 32))%nat ||
  (n =? 133)%nat || (n =? 160)%nat.

Fixpoint drop_spaces (l : list ascii) : list ascii :=
  match l with
  | [] => []
  | c :: l' => if is_space c then drop_spaces l' else l
  end.

(** [s.strip()] *)
Definition strip (s : string) : string :=
  string_of_list_ascii
    (rev (drop_spaces (rev (drop_spaces (list_ascii_of_string s))))).

(** [sep.join(l)] *)
Definition join (sep : string) (l : list string) : string := String.concat sep l.

(** Truthiness of a [str]: non-empty. *)
Definition truthy (s : string) : bool :=
  match s with EmptyString => false | _ => true end.

Definition Qltb (a b : Q) : bool := negb (Qle_bool b a).

(** Built-in [max(a, b)]: the first argument unless the second is larger;
    [min(a, b)]: the first argument unless the second is smaller. *)
Definition max (a b : Q) : Q := if Qltb a b then b else a.
Definition min (a b : Q) : Q := if Qltb b a then b else a.

End Py.

(* ------------------------------------------------------------------ *)
(** ** ModelPerformanceTracker *)

Module Tracker.

Record ModelRecord := mkRecord {
  success_count : Z;
  failure_count : Z;
  avg_response_time : Q;
  last_used : Q
}.

(** The [defaultdict] factory. *)
Definition default_record : ModelRecord := mkRecord 0 0 0%Q 0%Q.

(** [self.performance_data[model]] read through the [defaultdict]. *)
Definition get_record (pd : gmap string ModelRecord) (model : string) : ModelRecord :=
  default default_record (pd !! model).

(** [record_success(model, response_time)]; [now] is [time.time()]. *)
Definition record_success (pd : gmap string ModelRecord) (model : string)
    (response_time now : Q) : gmap string ModelRecord :=
  let data := get_record pd model in
  let sc := success_count data + 1 in
  let total_attempts := sc + failure_count data in
  <[model := mkRecord sc (failure_count data)
       ((avg_response_time data * inject_Z (total_attempts - 1) + response_time)
          / inject_Z total_attempts)%Q
       now]> pd.

(** [record_failure(model)]; [now] is [time.time()]. *)
Definition record_failure (pd : gmap string ModelRecord) (model : string)
    (now : Q) : gmap string ModelRecord :=
  let data := get_record pd model in
  <[model := mkRecord (success_count data) (failure_count data + 1)
       (avg_response_time data) now]> pd.

(** The local [score_model] of [get_model_rankings]. *)
Definition score_model (pd : gmap string ModelRecord) (model : string) : Q :=
  match pd !! model with
  | None => 0%Q
  | Some data =>
      let total_attempts := success_count data + failure_count data in
      if total_attempts =? 0 then 0%Q
      else
        let success_rate := (inject_Z (success_count data) / inject_Z total_attempts)%Q in
        let avg_time :=
          if Py.Qltb 0 (avg_response_time data) then avg_response_time data else 60%Q in
        (success_rate * (60 / Py.max avg_time 1))%Q
  end.

(** [sorted(xs, key=key, reverse=True)]: Python's sort is stable, also with
    [reverse=True], so elements of equal key keep their original order.
    Insertion sort computes that same list. *)
Fixpoint insert_desc {A} (key : A -> Q) (x : A) (l : list A) : list A :=
  match l with
  | [] => [x]
  | y :: l' => if Qle_bool (key y) (key x) then x :: l else y :: insert_desc key x l'
  end.

Fixpoint sorted_desc {A} (key : A -> Q) (l : list A) : list A :=
  match l with
  | [] => []
  | x :: l' => insert_desc key x (sorted_desc key l')
  end.

Definition get_model_rankings (pd : gmap string ModelRecord) (models : list string)
    : list string :=
  sorted_desc (score_model pd) models.

End Tracker.

(* ------------------------------------------------------------------ *)
(** ** ImageQualityAssessor *)

Module Quality.

Record Metrics := mkMetrics {
  resolution : Z;
  contrast : Q;
  brightness : Q;
  sharpness : Q;
  text_density : Q;
  noise_level : Q
}.

(** The [quality_data] dict handed along with each page: the full metrics
    dict, the default [{'quality_score': 50}], or [{}] when quality
    assessment is disabled. *)
Record QualityData := mkQualityData {
  qd_metrics : option Metrics;
  qd_quality_score : option Q
}.

(** What numpy and OpenCV compute on the image; [None] means the call
    raises. [gray_stats] is [np.std] and [np.mean] of
    [np.array(image.convert('L'))]; [laplacian_var] is
    [cv2.Laplacian(img_array, cv2.CV_64F).var()]; [edge_fraction] is
    [np.sum(edges > 0) / edges.size] for the Canny edges; [highpass_std] is
    [np.std] of the high-pass filtered array. *)
Record ImageProbe := mkProbe {
  image_size : Z * Z;
  gray_stats : option (Q * Q);
  laplacian_var : option Q;
  edge_fraction : option Q;
  highpass_std : option Q
}.

(** The three helpers catch every exception and return [0.0]. *)
Definition calculate_sharpness (p : ImageProbe) : Q := default 0%Q (laplacian_var p).
Definition estimate_text_density (p : ImageProbe) : Q := default 0%Q (edge_fraction p).
Definition estimate_noise_level (p : ImageProbe) : Q := default 0%Q (highpass_std p).

(** The weighted sum of capped contributions. *)
Definition score_terms (m : Metrics) : Q :=
  (Py.min (inject_Z (resolution m) / 1000000) 30 +
   Py.min (contrast m / 50) 20 +
   Py.min (sharpness m / 100) 25 +
   Py.min (text_density m * 100) 15 +
   Py.max 0 (10 - noise_level m / 10))%Q.

(** [ImageQualityAssessor.assess_image_quality] *)
Definition assess_image_quality (p : ImageProbe) : QualityData :=
  match gray_stats p with
  | None => mkQualityData None (Some 50%Q)
  | Some (std, mean) =>
      let metrics := mkMetrics (fst (image_size p) * snd (image_size p)) std mean
                       (calculate_sharpness p) (estimate_text_density p)
                       (estimate_noise_level p) in
      mkQualityData (Some metrics) (Some (Py.min 100 (Py.max 0 (score_terms metrics))))
  end.

(** [quality_data.get('quality_score', 50)] *)
Definition quality_score_of (qd : QualityData) : Q := default 50%Q (qd_quality_score qd).

End Quality.

(* ------------------------------------------------------------------ *)
(** ** Image segmentation: [_create_image_segments] *)

Module Segmenter.

(** A PIL crop box [(left, top, right, bottom)]; the crop holds the pixels
    [(x, y)] with [left <= x < right] and [top <= y < bottom]. *)
Record Box := mkBox { left : Z; top : Z; right : Z; bottom : Z }.

Definition in_box (b : Box) (x y : Z) : Prop :=
  left b <= x < right b /\ top b <= y < bottom b.

(** [range(n)] *)
Definition py_range (n : Z) : list Z := map Z.of_nat (seq 0 (Z.to_nat n)).

(** The box of grid cell [(row, col)]. *)
Definition cell_box (width height rows cols segment_width segment_height row col : Z) : Box :=
  let l := col * segment_width in
  let t := row * segment_height in
  let r := if col <? cols - 1 then l + segment_width else width in
  let b := if row <? rows - 1 then t + segment_height else height in
  mkBox l t r b.

(** The crop boxes of [_create_image_segments], in the order the segments
    are appended; [None] is the [ZeroDivisionError] of [width // 0]. *)
Definition create_image_segments (width height segment_size : Z) : option (list Box) :=
  if segment_size =? 0 then None
  else
    let cols := Z.max 1 (width / segment_size) in
    let rows := Z.max 1 (height / segment_size) in
    let segment_width := width / cols in
    let segment_height := height / rows in
    Some (flat_map (fun row =>
            map (fun col => cell_box width height rows cols segment_width segment_height row col)
              (py_range cols))
          (py_range rows)).

End Segmenter.

(* ------------------------------------------------------------------ *)
(** ** Segment recombination: [_combine_segment_texts] *)

Module Combine.

Definition nl : string := String "010"%char EmptyString.
Definition blank_line : string := (nl ++ nl)%string.

(** [segment_texts.sort(key=lambda x: x[0])]: stable ascending sort. *)
Fixpoint insert_by_index (x : Z * string) (l : list (Z * string)) : list (Z * string) :=
  match l with
  | [] => [x]
  | y :: l' => if fst x <=? fst y then x :: l else y :: insert_by_index x l'
  end.

Fixpoint sort_by_index (l : list (Z * string)) : list (Z * string) :=
  match l with
  | [] => []
  | x :: l' => insert_by_index x (sort_by_index l')
  end.

(** The loop that keeps [text.strip()] for each truthy stripped text. *)
Fixpoint collect (l : list (Z * string)) : list string :=
  match l with
  | [] => []
  | (_, text) :: l' =>
      if Py.truthy (Py.strip text) then Py.strip text :: collect l' else collect l'
  end.

Definition combine_segment_texts (segment_texts : list (Z * string)) : string :=
  Py.join blank_line (collect (sort_by_index segment_texts)).

End Combine.

(* ------------------------------------------------------------------ *)
(** ** Converter configuration, results and the result cache *)

Module Converter.

Import Tracker Quality.

(** The attributes set by [AdvancedOptimizedPdfOcrConverter.__init__].
    [enable_caching] is the value after [_setup_cache], which clears it when
    the cache directory cannot be created. *)
Record Config := mkConfig {
  max_image_size : Z;
  compression_quality : Z;
  use_grayscale : bool;
  enable_parallel : bool;
  max_workers : Z;
  segment_size : Z;
  timeout : Z;
  fallback_to_tesseract : bool;
  enable_caching : bool;
  enable_smart_model_selection : bool;
  enable_quality_assessment : bool;
  cache_dir : string;
  fallback_vision_models : list string
}.

Definition default_models : list string :=
  ["llama3.2-vision:latest"; "minicpm-v:latest"; "llava:latest"; "llava:7b"; "llava:13b"].

(** The constructor's default arguments. *)
Definition default_config : Config :=
  mkConfig 800 85 true true 4 800 300 true true true true "ocr_cache" default_models.

(** Values of the [metadata] dict built for an image-based PDF. *)
Inductive Setting := SInt (z : Z) | SBool (b : bool).

Inductive MetaValue :=
  | MMethods (l : list string)
  | MCount (n : Z)
  | MQuality (l : list QualityData)
  | MSettings (l : list (string * Setting)).

(** [DocumentConverterResult(markdown, metadata=None)] *)
Record ConversionResult := mkResult {
  markdown : string;
  metadata : option (list (string * MetaValue))
}.

(** A call to an external OCR engine: pytesseract on the page's image
    bytes, or a [POST /api/chat] to a vision model with an encoded image. *)
Inductive OcrCall :=
  | CallTesseract (image_data : string)
  | CallVision (model : string) (img_b64 : string).

(** The state the converter mutates: the tracker's [performance_data], the
    cache directory (file path to file contents), and the log of the calls
    made to the OCR engines, oldest first. *)
Record World := mkWorld {
  performance_data : gmap string ModelRecord;
  files : gmap string string;
  ocr_calls : list OcrCall
}.

(** [os.path.join(cache_dir, name)] (posixpath): an absolute [name]
    replaces the directory. *)
Definition path_join (dir name : string) : string :=
  if String.prefix "/" name then name
  else
    match dir with
    | EmptyString => name
    | _ => if String.eqb (String.substring (String.length dir - 1) 1 dir) "/"
           then String.append dir name
           else String.append dir (String.append "/" name)
    end.

Definition cache_file (cfg : Config) (cache_key : string) : string :=
  path_join (cache_dir cfg) (String.append cache_key ".txt").

(** Reading a file opened in text mode ([newline=None]): universal
    newlines, so [\r\n] and a lone [\r] are both read as [\n]. Writing in
    text mode on a POSIX system stores the characters unchanged. *)
Fixpoint universal_newlines (l : list ascii) : list ascii :=
  match l with
  | "013"%char :: "010"%char :: l' => "010"%char :: universal_newlines l'
  | "013"%char :: l' => "010"%char :: universal_newlines l'
  | c :: l' => c :: universal_newlines l'
  | [] => []
  end.

Definition read_text (contents : string) : string :=
  string_of_list_ascii (universal_newlines (list_ascii_of_string contents)).

(** What [open(cache_file, 'w')] followed by [f.write(result)] does to the
    file: it is written; [open] raises (missing or unwritable directory)
    and the file is left as it was; or the write raises after [open]
    truncated the file (full disk, a text the codec rejects), leaving the
    part that reached it. *)
Inductive WriteOutcome :=
  | Written
  | OpenFailed
  | WriteFailed (partial : string).

(** [_get_cached_result]. [readable path contents] tells whether opening
    and reading the existing file succeeds; an exception there is caught
    and the method returns [None]. *)
Definition get_cached_result (cfg : Config) (readable : string -> string -> bool)
    (fs : gmap string string) (cache_key : string) : option string :=
  if negb (enable_caching cfg) then None
  else
    let path := cache_file cfg cache_key in
    match fs !! path with
    | Some contents => if readable path contents then Some (read_text contents) else None
    | None => None
    end.

(** [_save_cached_result]. [write path result] is the outcome of the
    write; an exception is caught and only logged. *)
Definition save_cached_result (cfg : Config) (write : string -> string -> WriteOutcome)
    (fs : gmap string string) (cache_key result : string) : gmap string string :=
  if negb (enable_caching cfg) then fs
  else
    let path := cache_file cfg cache_key in
    match write path result with
    | Written => <[path := result]> fs
    | OpenFailed => fs
    | WriteFailed partial => <[path := partial]> fs
    end.

(** [_get_adaptive_timeout] *)
Definition get_adaptive_timeout (cfg : Config) (qd : QualityData) : Z :=
  if negb (enable_quality_assessment cfg) then 120
  else
    let quality_score := quality_score_of qd in
    if Py.Qltb quality_score 30 then 180
    else if Py.Qltb quality_score 70 then 120
    else 90.

End Converter.

(* ------------------------------------------------------------------ *)
(** ** The OCR pipeline *)

Module Pipeline.

Import Tracker Quality Segmenter Converter.

(** One line of the [/api/chat] reply body after [json.loads]: a blank line
    (skipped), a line that is not JSON ([JSONDecodeError], skipped), an
    object without [message.content], an object with
    [message.content = s], or a value on which the [in] test or the
    indexing raises (a [TypeError], which leaves the parsing loop). *)
Inductive JsonLine :=
  | JBlank
  | JInvalid
  | JNoContent
  | JContent (s : string)
  | JTypeError.

(** The outcome of [requests.post]: it raises (timeout, connection error),
    or returns a status code and the reply's lines. *)
Inductive Reply :=
  | Raised
  | Http (status_code : Z) (lines : list JsonLine).

(** One HTTP attempt, with the measured [time.time() - start_time] and the
    clock at its end (the [last_used] stamp). *)
Record Attempt := mkAttempt {
  reply : Reply;
  elapsed : Q;
  finished_at : Q
}.

(** The external collaborators: PIL, requests against the Ollama server,
    pytesseract, hashlib, the PDF classifier, the rasterizer
    ([fitz.open] and [get_pixmap], then [Image.open] on the PNG bytes), the
    numpy and OpenCV statistics of a page image, [_optimize_image_advanced]
    followed by the JPEG [save], the cache file's [open]/[write] and
    [open]/[read] (whose errors the cache helpers catch), the text-based
    converter and the thread pool. [None] results are exceptions. *)
Record Env := mkEnv {
  Img : Type;
  image_open : string -> option Img;
  img_size : Img -> Z * Z;
  crop : Img -> Box -> Img;
  save_jpeg : Img -> option string;
  ollama_chat : string -> string -> Z -> Attempt;
  image_to_string : string -> option string;
  md5_hexdigest : string -> string;
  analyze_pdf_type : string -> string;
  render_pages : string -> option (list Img);
  probe : Img -> ImageProbe;
  optimize_to_jpeg : Img -> QualityData -> option string;
  cache_write : string -> string -> WriteOutcome;
  cache_readable : string -> string -> bool;
  pdf_converter : string -> option ConversionResult;
  completion_order : nat -> list nat;
  pool_timed_out : nat -> bool
}.

(** A state and exception monad over [World]. *)
Inductive Result (A : Type) := Ok (a : A) | Raise.
Arguments Ok {A} a.
Arguments Raise {A}.

Definition M (A : Type) : Type := World -> Result A * World.

Definition ret {A} (a : A) : M A := fun w => (Ok a, w).
Definition raise {A} : M A := fun w => (Raise, w).
Definition bind {A B} (c : M A) (k : A -> M B) : M B :=
  fun w => match c w with
           | (Ok a, w') => k a w'
           | (Raise, w') => (Raise, w')
           end.

Notation "'let!' x ':=' c 'in' k" := (bind c (fun x => k))
  (at level 200, x name, c at level 100, k at level 200).
Notation "'let!' ' p ':=' c 'in' k" := (bind c (fun x => match x with p => k end))
  (at level 200, p pattern, c at level 100, k at level 200).

(** [try: c except Exception: h] *)
Definition try_except {A} (c : M A) (h : M A) : M A :=
  fun w => match c w with
           | (Ok a, w') => (Ok a, w')
           | (Raise, w') => h w'
           end.

Definition lift_opt {A} (o : option A) : M A :=
  match o with Some a => ret a | None => raise end.

Fixpoint mapM {A B} (f : A -> M B) (l : list A) : M (list B) :=
  match l with
  | [] => ret []
  | x :: l' => let! y := f x in let! ys := mapM f l' in ret (y :: ys)
  end.

Definition update_tracker (f : gmap string ModelRecord -> gmap string ModelRecord) : M unit :=
  fun w => (Ok tt, mkWorld (f (performance_data w)) (files w) (ocr_calls w)).

Definition read_files : M (gmap string string) := fun w => (Ok (files w), w).
Definition read_tracker : M (gmap string ModelRecord) := fun w => (Ok (performance_data w), w).
Definition update_files (f : gmap string string -> gmap string string) : M unit :=
  fun w => (Ok tt, mkWorld (performance_data w) (f (files w)) (ocr_calls w)).
Definition log_call (c : OcrCall) : M unit :=
  fun w => (Ok tt, mkWorld (performance_data w) (files w) (ocr_calls w ++ [c])).

(** The loop over reply lines; [None] when a [TypeError] escapes. *)
Fixpoint content_parts (ls : list JsonLine) : option (list string) :=
  match ls with
  | [] => Some []
  | JContent s :: ls' => option_map (cons s) (content_parts ls')
  | JTypeError :: _ => None
  | _ :: ls' => content_parts ls'
  end.

Section WithEnv.

Variable E : Env.
Variable cfg : Config.

Definition note_success (model : string) (response_time now : Q) : M unit :=
  if enable_smart_model_selection cfg
  then update_tracker (fun pd => record_success pd model response_time now)
  else ret tt.

Definition note_failure (model : string) (now : Q) : M unit :=
  if enable_smart_model_selection cfg
  then update_tracker (fun pd => record_failure pd model now)
  else ret tt.

(** One iteration of the [for model in models_to_try] loop of
    [_process_single_image_advanced] (and, identically, of
    [_process_single_segment_advanced]): [Some text] returns from the loop,
    [None] moves on to the next model. *)
Definition try_vision_model (model img_b64 : string) (qd : QualityData) : M (option string) :=
  let a := ollama_chat E model img_b64 (get_adaptive_timeout cfg qd) in
  try_except
    (let! _ := log_call (CallVision model img_b64) in
     match reply a with
     | Raised => raise
     | Http status lines =>
         if status =? 200 then
           let! parts := lift_opt (content_parts lines) in
           match parts with
           | [] => ret None
           | _ :: _ =>
               let text := Py.strip (String.concat "" parts) in
               if Py.truthy text
               then let! _ := note_success model (elapsed a) (finished_at a) in ret (Some text)
               else ret None
           end
         else let! _ := note_failure model (finished_at a) in ret None
     end)
    (let! _ := note_failure model (finished_at a) in ret None).

Fixpoint try_models (models : list string) (img_b64 : string) (qd : QualityData)
    : M (option (string * string)) :=
  match models with
  | [] => ret None
  | model :: models' =>
      let! r := try_vision_model model img_b64 qd in
      match r with
      | Some text => ret (Some (text, model))
      | None => try_models models' img_b64 qd
      end
  end.

(** [_get_smart_model_selection] *)
Definition get_smart_model_selection : M (list string) :=
  if enable_smart_model_selection cfg
  then let! pd := read_tracker in ret (get_model_rankings pd (fallback_vision_models cfg))
  else ret (fallback_vision_models cfg).

(** [_process_single_image_advanced] *)
Definition process_single_image_advanced (image : Img E) (qd : QualityData) : M (string * string) :=
  try_except
    (let! img_b64 := lift_opt (save_jpeg E image) in
     let! models_to_try := get_smart_model_selection in
     let! r := try_models models_to_try img_b64 qd in
     match r with
     | Some (text, model) =>
         ret (text, String.append "Advanced Vision OCR (" (String.append model ")"))
     | None => ret (""%string, "Advanced Vision OCR failed"%string)
     end)
    (ret (""%string, "Error"%string)).

(** [_process_single_segment_advanced] *)
Definition process_single_segment_advanced (segment : Img E) (qd : QualityData) : M string :=
  try_except
    (let! img_b64 := lift_opt (save_jpeg E segment) in
     let! models_to_try := get_smart_model_selection in
     let! r := try_models models_to_try img_b64 qd in
     match r with
     | Some (text, _) => ret text
     | None => ret ""%string
     end)
    (ret ""%string).

Definition segments_method (kind : string) (n : nat) : string :=
  String.append "Advanced Vision OCR (" (String.append kind
    (String.append ", " (String.append (pretty n) " segments)"))).

(** [_process_segments_sequential_advanced] *)
Definition process_segments_sequential_advanced (segments : list (Img E)) (qd : QualityData)
    : M (string * string) :=
  try_except
    (let! texts := mapM (fun seg => process_single_segment_advanced seg qd) segments in
     let all_texts := zip (map Z.of_nat (seq 0 (length segments))) texts in
     ret (Combine.combine_segment_texts all_texts, segments_method "Sequential" (length segments)))
    (ret (""%string, "Error"%string)).

(** [_process_segments_parallel_advanced], on one admissible schedule of the
    thread pool: the workers run one after another in segment order, so
    their tracker updates and calls happen in that order (the interleavings
    of concurrent workers are not modelled); [all_texts] lists the results
    in the order [as_completed] yields them; leaving the [with] block waits
    for every worker, after which an [as_completed] timeout is raised. *)
Definition process_segments_parallel_advanced (segments : list (Img E)) (qd : QualityData)
    : M (string * string) :=
  try_except
    (let! texts := mapM (fun seg => process_single_segment_advanced seg qd) segments in
     if pool_timed_out E (length segments) then raise
     else
       let all_texts := map (fun i => (Z.of_nat i, nth i texts ""%string))
                          (completion_order E (length segments)) in
       ret (Combine.combine_segment_texts all_texts, segments_method "Parallel" (length segments)))
    (ret (""%string, "Error"%string)).

(** [_process_image_with_segmentation_advanced] *)
Definition process_image_with_segmentation_advanced (image : Img E) (qd : QualityData)
    : M (string * string) :=
  try_except
    (let '(width, height) := img_size E image in
     let! boxes := lift_opt (create_image_segments width height (segment_size cfg)) in
     let segments := map (crop E image) boxes in
     if enable_parallel cfg && (1 <? length segments)%nat
     then process_segments_parallel_advanced segments qd
     else process_segments_sequential_advanced segments qd)
    (ret (""%string, "Error"%string)).

(** [_process_image_with_advanced_vision_ocr] *)
Definition process_image_with_advanced_vision_ocr (image_data : string) (qd : QualityData)
    : M (string * string) :=
  try_except
    (let! image := lift_opt (image_open E image_data) in
     let '(width, height) := img_size E image in
     if segment_size cfg <? Z.max width height
     then process_image_with_segmentation_advanced image qd
     else process_single_image_advanced image qd)
    (ret (""%string, "Error"%string)).

(** The text [_extract_text_with_tesseract] returns. *)
Definition tesseract_text (image_data : string) : string :=
  if negb (fallback_to_tesseract cfg) then ""%string
  else match image_to_string E image_data with
       | Some text => Py.strip text
       | None => ""%string
       end.

(** [_extract_text_with_tesseract], with its call to pytesseract. *)
Definition extract_text_with_tesseract (image_data : string) : M string :=
  if negb (fallback_to_tesseract cfg) then ret ""%string
  else let! _ := log_call (CallTesseract image_data) in ret (tesseract_text image_data).

(** The body of the page loop of [_process_image_based_pdf_advanced]:
    the page's text and processing method. *)
Definition process_page (page : string * QualityData) : M (string * string) :=
  let '(image_data, qd) := page in
  let cache_key := md5_hexdigest E image_data in
  let! fs := read_files in
  let fresh :=
    let! traditional_text := extract_text_with_tesseract image_data in
    let! '(page_text, processing_method) :=
      if Py.truthy traditional_text && (50 <? String.length (Py.strip traditional_text))%nat
      then ret (traditional_text, "Traditional OCR (Tesseract)"%string)
      else process_image_with_advanced_vision_ocr image_data qd in
    let! _ :=
      if Py.truthy page_text
      then update_files (fun fs' => save_cached_result cfg (cache_write E) fs' cache_key page_text)
      else ret tt in
    ret (page_text, processing_method) in
  match get_cached_result cfg (cache_readable E) fs cache_key with
  | Some cached_result =>
      if Py.truthy cached_result then ret (cached_result, "Cached Result"%string) else fresh
  | None => fresh
  end.

(** The page separator appended after page [page_num] (counted from 0). *)
Definition page_separator (page_num : nat) : string :=
  String.append (String.append Combine.blank_line "--- Page ")
    (String.append (pretty (page_num + 2)%nat) (String.append " ---" Combine.blank_line)).

(** The page loop: [all_text] (page texts and separators),
    [processing_methods] and [quality_metrics]. *)
Fixpoint process_pages (total page_num : nat) (pages : list (string * QualityData))
    : M (list string * list string * list QualityData) :=
  match pages with
  | [] => ret ([], [], [])
  | (image_data, qd) :: pages' =>
      let! '(page_text, processing_method) := process_page (image_data, qd) in
      let sep := if (page_num <? total - 1)%nat then [page_separator page_num] else [] in
      let! '(all_text, processing_methods, quality_metrics) :=
        process_pages total (S page_num) pages' in
      ret (page_text :: sep ++ all_text, processing_method :: processing_methods,
           qd :: quality_metrics)
  end.

(** The [metadata] dict of [_process_image_based_pdf_advanced]. *)
Definition build_metadata (total_pages : nat) (processing_methods : list string)
    (quality_metrics : list QualityData) : list (string * MetaValue) :=
  [("processing_methods", MMethods processing_methods);
   ("total_pages", MCount (Z.of_nat total_pages));
   ("quality_metrics", MQuality quality_metrics);
   ("optimization_settings", MSettings
      [("max_image_size", SInt (max_image_size cfg));
       ("compression_quality", SInt (compression_quality cfg));
       ("use_grayscale", SBool (use_grayscale cfg));
       ("enable_parallel", SBool (enable_parallel cfg));
       ("segment_size", SInt (segment_size cfg));
       ("enable_caching", SBool (enable_caching cfg));
       ("enable_smart_model_selection", SBool (enable_smart_model_selection cfg));
       ("enable_quality_assessment", SBool (enable_quality_assessment cfg))])]%string.

(** The [quality_data] of a rendered page: [{}] unless quality assessment is
    enabled. *)
Definition page_quality (img : Img E) : QualityData :=
  if enable_quality_assessment cfg then assess_image_quality (probe E img)
  else mkQualityData None None.

Fixpoint optimize_pages (imgs : list (Img E)) : option (list (string * QualityData)) :=
  match imgs with
  | [] => Some []
  | img :: rest =>
      let quality_data := page_quality img in
      match optimize_to_jpeg E img quality_data with
      | None => None
      | Some bytes =>
          match optimize_pages rest with
          | None => None
          | Some tail => Some ((bytes, quality_data) :: tail)
          end
      end
  end.

(** [_convert_pdf_to_optimized_images_advanced]: every exception is logged
    and re-raised. *)
Definition convert_pdf_to_optimized_images_advanced (file_data : string)
    : option (list (string * QualityData)) :=
  match render_pages E file_data with
  | None => None
  | Some imgs => optimize_pages imgs
  end.

(** [_process_image_based_pdf_advanced], returning with the result the
    local [metadata] dict it builds. *)
Definition process_image_based_with_metadata (file_data : string)
    : M (ConversionResult * list (string * MetaValue)) :=
  let! optimized := lift_opt (convert_pdf_to_optimized_images_advanced file_data) in
  let! '(all_text, processing_methods, quality_metrics) :=
    process_pages (length optimized) 0 optimized in
  let combined_text := String.concat "" all_text in
  let md := build_metadata (length optimized) processing_methods quality_metrics in
  ret (mkResult combined_text None, md).

(** [_process_image_based_pdf_advanced]: the result is built from
    [markdown=combined_text] alone. *)
Definition process_image_based_pdf_advanced (file_data : string) : M ConversionResult :=
  let! '(res, _) := process_image_based_with_metadata file_data in ret res.

(** [convert] on the bytes read from the path or stream. *)
Definition convert (file_data : string) : M ConversionResult :=
  if String.eqb (analyze_pdf_type E file_data) "text-based"
  then lift_opt (pdf_converter E file_data)
  else process_image_based_pdf_advanced file_data.

End WithEnv.

End Pipeline.

(* ------------------------------------------------------------------ *)
(** ** Image optimization: [_optimize_image_advanced] *)

Module Optimize.

Import Quality Converter.

(** The three enhancement chains of the optimizer. *)
Inductive Enhancement := Aggressive | Moderate | Minimal.

(** The PIL operations the optimizer calls; [None] means the call raises.
    [unsharp_mask img radius percent threshold] is
    [img.filter(ImageFilter.UnsharpMask(...))], [gaussian_blur img radius]
    is [img.filter(ImageFilter.GaussianBlur(radius))], the two enhancers are
    [ImageEnhance.Contrast(img).enhance(f)] and
    [ImageEnhance.Brightness(img).enhance(f)]. *)
Record ImageOps := mkImageOps {
  PImg : Type;
  size : PImg -> Z * Z;
  resize : PImg -> Z * Z -> option PImg;
  convert_L : PImg -> option PImg;
  enhance_contrast : PImg -> Q -> option PImg;
  enhance_brightness : PImg -> Q -> option PImg;
  unsharp_mask : PImg -> Q -> Z -> Z -> option PImg;
  gaussian_blur : PImg -> Q -> option PImg
}.

(** [int(x)] on a float: truncation toward zero. *)
Definition py_int (q : Q) : Z := Z.quot (Qnum q) (Zpos (Qden q)).

(** [tuple(int(dim * ratio) for dim in image.size)] with
    [ratio = self.max_image_size / max(image.size)]. *)
Definition resized_size (max_image_size : Z) (sz : Z * Z) : Z * Z :=
  let ratio := (inject_Z max_image_size / inject_Z (Z.max (fst sz) (snd sz)))%Q in
  (py_int (inject_Z (fst sz) * ratio), py_int (inject_Z (snd sz) * ratio)).

Section WithOps.

Variable O : ImageOps.

(** A [try] block that reassigns [image] at each step and whose [except]
    returns [image]: the image after the last step that succeeded. *)
Fixpoint run_steps (steps : list (PImg O -> option (PImg O))) (image : PImg O) : PImg O :=
  match steps with
  | [] => image
  | step :: steps' =>
      match step image with
      | Some image' => run_steps steps' image'
      | None => image
      end
  end.

(** [_apply_aggressive_enhancement] *)
Definition apply_aggressive_enhancement (image : PImg O) : PImg O :=
  run_steps [fun i => enhance_contrast O i (3#2);
             fun i => enhance_brightness O i (6#5);
             fun i => unsharp_mask O i 2 200 2;
             fun i => gaussian_blur O i (3#10)] image.

(** [_apply_moderate_enhancement] *)
Definition apply_moderate_enhancement (image : PImg O) : PImg O :=
  run_steps [fun i => enhance_contrast O i (6#5);
             fun i => unsharp_mask O i 1 150 3;
             fun i => gaussian_blur O i (1#2)] image.

(** [_apply_minimal_enhancement] *)
Definition apply_minimal_enhancement (image : PImg O) : PImg O :=
  run_steps [fun i => enhance_contrast O i (11#10);
             fun i => unsharp_mask O i (1#2) 120 5] image.

(** The enhancement branch of [_optimize_image_advanced]. *)
Definition enhancement_for (cfg : Config) (qd : QualityData) : Enhancement :=
  if enable_quality_assessment cfg then
    let quality_score := quality_score_of qd in
    if Py.Qltb quality_score 30 then Aggressive
    else if Py.Qltb quality_score 70 then Moderate
    else Minimal
  else Moderate.

Definition apply_enhancement (e : Enhancement) (image : PImg O) : PImg O :=
  match e with
  | Aggressive => apply_aggressive_enhancement image
  | Moderate => apply_moderate_enhancement image
  | Minimal => apply_minimal_enhancement image
  end.

(** [_optimize_image_advanced]: an exception in the resize or the grayscale
    conversion returns the image as it is at that point (the [except]
    returns the local [image]); [max(image.size) = 0] with a negative
    [max_image_size] is the [ZeroDivisionError] of the ratio. *)
Definition optimize_image_advanced (cfg : Config) (image : PImg O) (qd : QualityData)
    : PImg O :=
  let '(w, h) := size O image in
  let resized :=
    if max_image_size cfg <? Z.max w h then
      if Z.max w h =? 0 then None
      else resize O image (resized_size (max_image_size cfg) (w, h))
    else Some image in
  match resized with
  | None => image
  | Some image1 =>
      let gray := if use_grayscale cfg then convert_L O image1 else Some image1 in
      match gray with
      | None => image1
      | Some image2 => apply_enhancement (enhancement_for cfg qd) image2
      end
  end.

End WithOps.

End Optimize.

(* ------------------------------------------------------------------ *)
(** ** Reference definitions used in the statements *)

Module Reference.

Import Tracker Quality Segmenter Converter Pipeline.

(** The ranking score in the words of the specification: 0 for a model
    with no recorded attempt, otherwise
    [success_rate * (60 / max(avg_response_time, 1))]. *)
Definition spec_score (pd : gmap string ModelRecord) (model : string) : Q :=
  match pd !! model with
  | None => 0%Q
  | Some data =>
      let total_attempts := success_count data + failure_count data in
      if total_attempts =? 0 then 0%Q
      else (inject_Z (success_count data) / inject_Z total_attempts
            * (60 / Py.max (avg_response_time data) 1))%Q
  end.

(** A descending order of the candidates by a score. *)
Definition descending (score : string -> Q) (l : list string) : Prop :=
  Sorted (fun a b => (score b <= score a)%Q) l.

(** A tracker in which model "A" succeeded once in no measurable time and
    model "B" succeeded once in 30 seconds. *)
Definition pd_instant : gmap string ModelRecord :=
  <["A" := mkRecord 1 0 0 0]> (<["B" := mkRecord 1 0 30 0]> ∅).

(** An image on which [cv2.Laplacian] raises while the other metrics are
    computed: one megapixel, contrast 50, no edges, no noise. *)
Definition probe_laplacian_fails : ImageProbe :=
  mkProbe (1000, 1000) (Some (50%Q, 128%Q)) None (Some 0%Q) (Some 0%Q).

(** A cache file system on which every write and read succeeds, and one
    on which [open(cache_file, 'w')] raises. *)
Definition write_ok : string -> string -> WriteOutcome := fun _ _ => Written.
Definition read_ok : string -> string -> bool := fun _ _ => true.

(** The shape of an [hashlib.md5(...).hexdigest()]: lowercase hexadecimal
    digits only. *)
Definition is_hex_char (c : ascii) : bool :=
  existsb (Ascii.eqb c) (list_ascii_of_string "0123456789abcdef").

Definition is_hex_key (k : string) : bool := forallb is_hex_char (list_ascii_of_string k).


(** A vision attempt that yields no text: the request raises, the status
    is not 200, a [TypeError] leaves the parsing loop, or the concatenated
    [message.content] fragments strip to the empty string. *)
Definition attempt_fails (a : Attempt) : Prop :=
  match reply a with
  | Raised => True
  | Http status lines =>
      status <> 200 \/
      match content_parts lines with
      | None => True
      | Some parts => Py.strip (String.concat "" parts) = ""%string
      end
  end.

Definition option_list {A} (o : option A) : list A :=
  match o with Some a => [a] | None => [] end.

(** The encoded images the vision stage of a page can send: the whole page,
    or each of its segments when the page is larger than [segment_size]. *)
Definition vision_payloads (E : Env) (cfg : Config) (image_data : string) : list string :=
  match image_open E image_data with
  | None => []
  | Some image =>
      let '(width, height) := img_size E image in
      if segment_size cfg <? Z.max width height then
        match create_image_segments width height (segment_size cfg) with
        | None => []
        | Some boxes => flat_map (fun b => option_list (save_jpeg E (crop E image b))) boxes
        end
      else option_list (save_jpeg E image)
  end.

(** The world in which page [j] is processed: after the pages before it. *)
Definition page_world (E : Env) (cfg : Config) (pages : list (string * QualityData))
    (w : World) (j : nat) : World :=
  snd (mapM (process_page E cfg) (take j pages) w).

(** The [all_text] list built from the page texts: each page's text,
    followed by a separator unless it is the last page. *)
Fixpoint with_separators (total page_num : nat) (texts : list string) : list string :=
  match texts with
  | [] => []
  | text :: texts' =>
      text :: (if (page_num <? total - 1)%nat then [page_separator page_num] else [])
        ++ with_separators total (S page_num) texts'
  end.

Definition is_vision_call (c : OcrCall) : Prop :=
  match c with CallVision _ _ => True | CallTesseract _ => False end.

(** Whether a call log holds a local OCR call after a vision call. *)
Fixpoint tesseract_after_vision (seen_vision : bool) (calls : list OcrCall) : bool :=
  match calls with
  | [] => false
  | CallVision _ _ :: calls' => tesseract_after_vision true calls'
  | CallTesseract _ :: calls' => seen_vision || tesseract_after_vision seen_vision calls'
  end.

Definition no_quality : QualityData := mkQualityData None None.

Definition world0 : World := mkWorld ∅ ∅ [].

(** A page image on which [image.convert('L')] raises: its quality data is
    the default [{'quality_score': 50}]. *)
Definition probe_gray_fails : ImageProbe := mkProbe (500, 500) None None None None.

Definition quality_default : QualityData := mkQualityData None (Some 50%Q).

(** A page of 500 x 500 pixels on which pytesseract finds a short text and
    every vision model's request raises. *)
Definition env_short_ocr : Env :=
  mkEnv string (fun s => Some s) (fun _ => (500, 500)) (fun s _ => s)
    (fun s => Some (String.append s ".jpg"))
    (fun _ _ _ => mkAttempt Raised 1 1)
    (fun _ => Some "short text"%string) (fun s => s) (fun _ => "image-based"%string)
    (fun _ => Some ["page1"]%string) (fun _ => probe_gray_fails) (fun s _ => Some s) (fun _ _ => Written) (fun _ _ => true)
    (fun _ => None)
    (fun n => seq 0 n) (fun _ => false).

(** The Ollama server answers 200 with one whitespace-only fragment. *)
Definition env_blank_reply : Env :=
  mkEnv string (fun s => Some s) (fun _ => (500, 500)) (fun s _ => s)
    (fun s => Some (String.append s ".jpg"))
    (fun _ _ _ => mkAttempt (Http 200 [JContent "   "]) 2 3)
    (fun _ => None) (fun s => s) (fun _ => "image-based"%string)
    (fun _ => Some ["page1"]%string) (fun _ => probe_gray_fails) (fun s _ => Some s) (fun _ _ => Written) (fun _ _ => true)
    (fun _ => None)
    (fun n => seq 0 n) (fun _ => false).

(** A two-page scan: every model reads "Hello world" on the first page and
    fails on the second; pytesseract finds nothing. *)
Definition env_two_pages : Env :=
  mkEnv string (fun s => Some s) (fun _ => (500, 500)) (fun s _ => s)
    (fun s => Some (String.append s ".jpg"))
    (fun _ b _ => if String.eqb b "page1.jpg"
                  then mkAttempt (Http 200 [JContent "Hello "; JContent "world"]) 2 3
                  else mkAttempt Raised 1 4)
    (fun _ => Some ""%string) (fun s => s) (fun _ => "image-based"%string)
    (fun _ => Some ["page1"; "page2"]%string) (fun _ => probe_gray_fails) (fun s _ => Some s) (fun _ _ => Written) (fun _ _ => true)
    (fun _ => None)
    (fun n => seq 0 n) (fun _ => false).

(** A tracker in which only "A" has a recorded success. *)
Definition pd_one_success : gmap string ModelRecord :=
  <["A" := mkRecord 1 0 5 0]> ∅.

(** The OCR calls the converter is configured to make: local OCR only when
    the Tesseract fallback is enabled, vision calls only to the listed
    fallback models. *)
Definition ocr_call_allowed (cfg : Config) (c : OcrCall) : Prop :=
  match c with
  | CallTesseract _ => fallback_to_tesseract cfg = true
  | CallVision model _ => In model (fallback_vision_models cfg)
  end.

Definition long_text : string :=
  "Invoice 2024-117: total amount due within thirty days of receipt".

(** pytesseract reads a line of more than 50 characters on every page. *)
Definition env_long_ocr : Env :=
  mkEnv string (fun s => Some s) (fun _ => (500, 500)) (fun s _ => s)
    (fun s => Some (String.append s ".jpg"))
    (fun _ _ _ => mkAttempt Raised 1 1)
    (fun _ => Some (String.append long_text "  ")) (fun s => s)
    (fun _ => "image-based"%string)
    (fun _ => Some ["page1"]%string) (fun _ => probe_gray_fails) (fun s _ => Some s) (fun _ _ => Written) (fun _ _ => true)
    (fun _ => None)
    (fun n => seq 0 n) (fun _ => false).

(** The default settings with caching and smart model selection turned
    off. *)
Definition config_plain : Config :=
  mkConfig 800 85 true true 4 800 300 true false false true "ocr_cache" default_models.


Definition pd_one_success_world : World := mkWorld pd_one_success ∅ [].

End Reference.

(* ------------------------------------------------------------------ *)
(** ** Theorems on the performance tracker *)

Module TrackerFacts.

Import Tracker Reference.

(** C10: [record_failure] increments only [failure_count] and stamps
    [last_used]: [success_count] and [avg_response_time] of the model are
    unchanged (a failure never feeds its time into the average), and the
    records of the other models are untouched. *)
Theorem record_failure_frame (pd : gmap string ModelRecord) (model : string) (now : Q) :
  let pd' := record_failure pd model now in
  success_count (get_record pd' model) = success_count (get_record pd model) /\
  failure_count (get_record pd' model) = failure_count (get_record pd model) + 1 /\
  avg_response_time (get_record pd' model) = avg_response_time (get_record pd model) /\
  last_used (get_record pd' model) = now /\
  (forall other : string, other <> model -> pd' !! other = pd !! other).
Proof.
  cbv zeta. unfold record_failure.
  set (data := get_record pd model).
  assert (Hget : get_record (<[model := mkRecord (success_count data) (failure_count data + 1)
                    (avg_response_time data) now]> pd) model =
                 mkRecord (success_count data) (failure_count data + 1)
                   (avg_response_time data) now).
  { unfold get_record. now rewrite lookup_insert_eq. }
  rewrite Hget; simpl.
  split; [reflexivity|]. split; [reflexivity|]. split; [reflexivity|].
  split; [reflexivity|].
  intros other Hne. rewrite lookup_insert_ne; congruence.
Qed.

Lemma Qle_bool_total (a b : Q) : Qle_bool a b = false -> (b <= a)%Q.
Proof.
  intros H. apply Qlt_le_weak, Qnot_le_lt. intros Hle.
  apply Qle_bool_iff in Hle. congruence.
Qed.

Lemma insert_desc_perm {A} (key : A -> Q) (x : A) (l : list A) :
  Permutation (insert_desc key x l) (x :: l).
Proof.
  induction l as [|y l IH]; simpl; [reflexivity|].
  destruct (Qle_bool (key y) (key x)); [reflexivity|].
  rewrite IH. apply perm_swap.
Qed.

Lemma sorted_desc_perm {A} (key : A -> Q) (l : list A) :
  Permutation (sorted_desc key l) l.
Proof.
  induction l as [|x l IH]; simpl; [reflexivity|].
  rewrite insert_desc_perm. now constructor.
Qed.

Lemma insert_desc_sorted {A} (key : A -> Q) (x : A) (l : list A) :
  Sorted (fun a b => (key b <= key a)%Q) l ->
  Sorted (fun a b => (key b <= key a)%Q) (insert_desc key x l).
Proof.
  induction 1 as [|y l Hl IH Hhd]; simpl; [repeat constructor|].
  destruct (Qle_bool (key y) (key x)) eqn:E.
  - constructor; [now constructor|]. constructor. now apply Qle_bool_iff.
  - constructor; [exact IH|].
    destruct l as [|z l]; simpl.
    + constructor. now apply Qle_bool_total.
    + inversion Hhd; subst.
      destruct (Qle_bool (key z) (key x)); constructor;
        [now apply Qle_bool_total | assumption].
Qed.

Lemma sorted_desc_sorted {A} (key : A -> Q) (l : list A) :
  Sorted (fun a b => (key b <= key a)%Q) (sorted_desc key l).
Proof.
  induction l as [|x l IH]; simpl; [constructor|].
  now apply insert_desc_sorted.
Qed.

(** C6, as stated, fails: with model "A" at one success in no measurable
    time and model "B" at one success in 30 seconds, the specification's
    score ranks "A" (60) above "B" (2), but [get_model_rankings] puts "B"
    first: a non-positive average is replaced by 60 seconds. *)
Lemma rankings_not_spec_descending :
  get_model_rankings pd_instant ["A"; "B"]%string = ["B"; "A"]%string /\
  ~ descending (spec_score pd_instant) (get_model_rankings pd_instant ["A"; "B"]%string).
Proof.
  split; [reflexivity|].
  unfold descending. intros Hs. vm_compute in Hs.
  apply Sorted_inv in Hs as [_ Hhd]. apply HdRel_inv in Hhd.
  vm_compute in Hhd. now apply Hhd.
Qed.

(** The sort is stable: the candidates of one score keep their order. *)
Lemma insert_desc_filter {A} (key : A -> Q) (q : Q) (x : A) (l : list A) :
  List.filter (fun m => Qeq_bool (key m) q) (insert_desc key x l) =
  List.filter (fun m => Qeq_bool (key m) q) (x :: l).
Proof.
  induction l as [|y l IH]; [reflexivity|]. simpl.
  destruct (Qle_bool (key y) (key x)) eqn:Ele; [reflexivity|].
  simpl. rewrite IH. simpl.
  destruct (Qeq_bool (key x) q) eqn:Ex, (Qeq_bool (key y) q) eqn:Ey; try reflexivity.
  exfalso. apply Qeq_bool_iff in Ex, Ey.
  assert (Hle : (key y <= key x)%Q).
  { apply Qle_lteq. right. exact (Qeq_trans _ _ _ Ey (Qeq_sym _ _ Ex)). }
  apply Qle_bool_iff in Hle. congruence.
Qed.

Lemma sorted_desc_filter {A} (key : A -> Q) (q : Q) (l : list A) :
  List.filter (fun m => Qeq_bool (key m) q) (sorted_desc key l) =
  List.filter (fun m => Qeq_bool (key m) q) l.
Proof.
  induction l as [|x l IH]; [reflexivity|]. simpl.
  rewrite insert_desc_filter. simpl. now rewrite IH.
Qed.

(** C6, amended: [get_model_rankings] returns a permutation of the
    candidates sorted in descending order of [score_model]: 0 for a model
    with no recorded attempt, otherwise
    [success_rate * (60 / max(t, 1))] where [t] is [avg_response_time] when
    it is positive and 60 otherwise; with a positive average this is the
    specification's score. Candidates of equal score keep their input
    order. *)
Theorem get_model_rankings_sorted (pd : gmap string ModelRecord) (models : list string) :
  Permutation (get_model_rankings pd models) models /\
  descending (score_model pd) (get_model_rankings pd models) /\
  (forall model, pd !! model = None -> score_model pd model = 0%Q) /\
  (forall model data, pd !! model = Some data ->
     success_count data + failure_count data = 0 -> score_model pd model = 0%Q) /\
  (forall model data, pd !! model = Some data ->
     success_count data + failure_count data <> 0 ->
     score_model pd model =
       (inject_Z (success_count data) / inject_Z (success_count data + failure_count data) *
        (60 / Py.max (if Py.Qltb 0 (avg_response_time data) then avg_response_time data
                      else 60) 1))%Q) /\
  (forall model data, pd !! model = Some data -> (0 < avg_response_time data)%Q ->
     score_model pd model = spec_score pd model) /\
  (forall q, List.filter (fun m => Qeq_bool (score_model pd m) q) (get_model_rankings pd models) =
             List.filter (fun m => Qeq_bool (score_model pd m) q) models).
Proof.
  split; [apply sorted_desc_perm|]. split; [apply sorted_desc_sorted|].
  split; [|split; [|split; [|split]]].
  - intros model H. unfold score_model. now rewrite H.
  - intros model data H H0. unfold score_model. rewrite H, H0. reflexivity.
  - intros model data H H0. unfold score_model. rewrite H. apply Z.eqb_neq in H0. now rewrite H0.
  - intros model data H Hpos. unfold score_model, spec_score. rewrite H.
    destruct (_ =? 0); [reflexivity|].
    unfold Py.Qltb. replace (Qle_bool (avg_response_time data) 0) with false; [reflexivity|].
    symmetry. apply not_true_iff_false. intros Hle. apply Qle_bool_iff in Hle.
    apply (Qlt_not_le _ _ Hpos Hle).
  - intros q. apply sorted_desc_filter.
Qed.

End TrackerFacts.

(* ------------------------------------------------------------------ *)
(** ** Theorems on the recombination of segment texts *)

Module CombineFacts.

Import Combine.

Definition le_idx (a b : Z * string) : Prop := fst a <= fst b.

Lemma insert_by_index_perm (x : Z * string) (l : list (Z * string)) :
  Permutation (insert_by_index x l) (x :: l).
Proof.
  induction l as [|y l IH]; simpl; [reflexivity|].
  destruct (fst x <=? fst y); [reflexivity|].
  rewrite IH. apply perm_swap.
Qed.

Lemma sort_by_index_perm (l : list (Z * string)) : Permutation (sort_by_index l) l.
Proof.
  induction l as [|x l IH]; simpl; [reflexivity|].
  rewrite insert_by_index_perm. now constructor.
Qed.

Lemma insert_by_index_sorted (x : Z * string) (l : list (Z * string)) :
  Sorted le_idx l -> Sorted le_idx (insert_by_index x l).
Proof.
  unfold le_idx.
  induction 1 as [|y l Hl IH Hhd]; simpl; [repeat constructor|].
  destruct (Z.leb_spec (fst x) (fst y)).
  - constructor; [now constructor|]. now constructor.
  - constructor; [exact IH|].
    destruct l as [|z l]; simpl.
    + constructor. lia.
    + inversion Hhd; subst.
      destruct (Z.leb_spec (fst x) (fst z)); constructor; lia.
Qed.

Lemma sort_by_index_sorted (l : list (Z * string)) : Sorted le_idx (sort_by_index l).
Proof.
  induction l as [|x l IH]; simpl; [constructor|].
  now apply insert_by_index_sorted.
Qed.

(** Two lists sorted by index, with distinct indices, that are
    permutations of each other are equal. *)
Lemma sorted_perm_unique (s1 s2 : list (Z * string)) :
  Sorted le_idx s1 -> Sorted le_idx s2 -> List.NoDup (map fst s1) ->
  Permutation s1 s2 -> s1 = s2.
Proof.
  revert s2.
  induction s1 as [|x s1 IH]; intros s2 H1 H2 Hnd Hp.
  - symmetry. now apply Permutation_nil.
  - destruct s2 as [|y s2]; [now apply Permutation_sym, Permutation_nil_cons in Hp|].
    apply Sorted_StronglySorted in H1 as HS1; [|intros a b c; unfold le_idx; lia].
    apply Sorted_StronglySorted in H2 as HS2; [|intros a b c; unfold le_idx; lia].
    inversion HS1 as [|? ? _ Hall1]; subst. inversion HS2 as [|? ? _ Hall2]; subst.
    simpl in Hnd. inversion Hnd as [|? ? Hnotin Hnd']; subst.
    assert (Hxy : x = y).
    { assert (Hx : In x (y :: s2)) by (eapply Permutation_in; [exact Hp| now left]).
      assert (Hy : In y (x :: s1)) by (eapply Permutation_in; [symmetry; exact Hp| now left]).
      destruct Hx as [->|Hx]; [reflexivity|].
      destruct Hy as [->|Hy]; [reflexivity|].
      rewrite List.Forall_forall in Hall1, Hall2.
      specialize (Hall1 y Hy). specialize (Hall2 x Hx). unfold le_idx in *.
      exfalso. apply Hnotin. replace (fst x) with (fst y) by lia.
      now apply in_map. }
    subst y. f_equal. apply IH.
    + now apply Sorted_inv in H1.
    + now apply Sorted_inv in H2.
    + exact Hnd'.
    + now apply Permutation_cons_inv in Hp.
Qed.

Lemma sorted_weaken {A} (R S : A -> A -> Prop) (l : list A) :
  (forall a b, R a b -> S a b) -> Sorted R l -> Sorted S l.
Proof.
  intros HRS. induction 1 as [|a l Hl IH Hhd]; constructor; [exact IH|].
  destruct Hhd; constructor. now apply HRS.
Qed.

Lemma collect_spec (l : list (Z * string)) :
  collect l = map Py.strip (List.filter (fun t => Py.truthy (Py.strip t)) (map snd l)).
Proof.
  induction l as [|[i t] l IH]; simpl; [reflexivity|].
  destruct (Py.truthy (Py.strip t)); simpl; now rewrite IH.
Qed.

(** C5: for segment results with distinct indices (as produced by
    [enumerate(segments)]), [_combine_segment_texts] gives the same text
    for every arrangement of the list, and that text is the stripped
    non-empty texts in ascending index order joined by a blank line. *)
Theorem combine_segment_texts_order_independent (l l' : list (Z * string)) :
  List.NoDup (map fst l) -> Permutation l l' ->
  combine_segment_texts l' = combine_segment_texts l /\
  (forall s : list (Z * string), Sorted (fun a b => fst a < fst b) s -> Permutation s l ->
     combine_segment_texts l =
     Py.join blank_line
       (map Py.strip (List.filter (fun t => Py.truthy (Py.strip t)) (map snd s)))).
Proof.
  intros Hnd Hp.
  assert (Hsort : forall k, Permutation k l -> sort_by_index k = sort_by_index l).
  { intros k Hk. apply sorted_perm_unique.
    - apply sort_by_index_sorted.
    - apply sort_by_index_sorted.
    - apply (Permutation_NoDup (l := map fst l) (l' := _)); [|exact Hnd].
      apply Permutation_map. rewrite sort_by_index_perm. now symmetry.
    - rewrite !sort_by_index_perm. exact Hk. }
  split.
  - unfold combine_segment_texts. rewrite (Hsort l'); [reflexivity|now symmetry].
  - intros s Hs Hsl.
    assert (Heq : sort_by_index l = s).
    { apply sorted_perm_unique.
      - apply sort_by_index_sorted.
      - eapply sorted_weaken; [|exact Hs]. intros a b; unfold le_idx; lia.
      - apply (Permutation_NoDup (l := map fst l) (l' := _)); [|exact Hnd].
        apply Permutation_map. symmetry. apply sort_by_index_perm.
      - rewrite sort_by_index_perm. now symmetry. }
    unfold combine_segment_texts. now rewrite Heq, collect_spec.
Qed.

(** Witness: two segments delivered out of order. *)
Lemma combine_segment_texts_order_independent_witness :
  combine_segment_texts [(1, "B "); (0, " A")]%string =
  combine_segment_texts [(0, " A"); (1, "B ")]%string /\
  (forall s : list (Z * string), Sorted (fun a b => fst a < fst b) s ->
     Permutation s [(0, " A"); (1, "B ")]%string ->
     combine_segment_texts [(0, " A"); (1, "B ")]%string =
     Py.join blank_line
       (map Py.strip (List.filter (fun t => Py.truthy (Py.strip t)) (map snd s)))).
Proof.
  apply combine_segment_texts_order_independent.
  - repeat constructor; simpl; intuition lia.
  - apply perm_swap.
Defined.

End CombineFacts.

(* ------------------------------------------------------------------ *)
(** ** Theorems on the segmenter *)

Module SegmenterFacts.

Import Segmenter.

(** [(x, y)] lies in the crop box, as a boolean. *)
Definition in_box_b (b : Box) (x y : Z) : bool :=
  ((left b <=? x) && (x <? right b)) && ((top b <=? y) && (y <? bottom b)).

Lemma in_box_b_spec (b : Box) (x y : Z) : in_box_b b x y = true <-> in_box b x y.
Proof.
  unfold in_box_b, in_box.
  rewrite !andb_true_iff, !Z.leb_le, !Z.ltb_lt. tauto.
Qed.

Definition countb {A} (p : A -> bool) (l : list A) : nat := length (List.filter p l).

Lemma countb_app {A} (p : A -> bool) (l1 l2 : list A) :
  countb p (l1 ++ l2) = (countb p l1 + countb p l2)%nat.
Proof. unfold countb. now rewrite List.filter_app, length_app. Qed.

Lemma countb_flat_map {A B} (p : B -> bool) (f : A -> list B) (l : list A) :
  countb p (flat_map f l) = list_sum (map (fun a => countb p (f a)) l).
Proof.
  induction l as [|a l IH]; simpl; [reflexivity|].
  now rewrite countb_app, IH.
Qed.

Lemma countb_map {A B} (p : B -> bool) (f : A -> B) (l : list A) :
  countb p (map f l) = countb (fun a => p (f a)) l.
Proof.
  induction l as [|a l IH]; simpl; [reflexivity|].
  unfold countb in *; simpl. destruct (p (f a)); simpl; now rewrite IH.
Qed.

Lemma countb_and_const {A} (p : A -> bool) (q : bool) (l : list A) :
  countb (fun a => p a && q) l = if q then countb p l else 0%nat.
Proof.
  induction l as [|a l IH]; simpl; [now destruct q|].
  unfold countb in *; simpl.
  destruct q, (p a); simpl; rewrite ?andb_true_r, ?andb_false_r in *; simpl; try lia.
Qed.

Lemma list_sum_select {A} (q : A -> bool) (K : nat) (l : list A) :
  list_sum (map (fun a => if q a then K else 0%nat) l) = (countb q l * K)%nat.
Proof.
  induction l as [|a l IH]; simpl; [reflexivity|].
  unfold countb in *; simpl. destruct (q a); simpl; lia.
Qed.

Lemma py_range_snoc (n : Z) : 0 <= n -> py_range (Z.succ n) = py_range n ++ [n].
Proof.
  intros Hn. unfold py_range.
  rewrite Z2Nat.inj_succ by lia. rewrite seq_S, map_app. simpl.
  now rewrite Z2Nat.id by lia.
Qed.

Lemma in_py_range (n r : Z) : In r (py_range n) <-> 0 <= r < n.
Proof.
  unfold py_range. rewrite in_map_iff. split.
  - intros [k [<- Hk]]. apply in_seq in Hk. lia.
  - intros Hr. exists (Z.to_nat r). split; [lia|]. apply in_seq. lia.
Qed.

Lemma length_py_range (n : Z) : length (py_range n) = Z.to_nat n.
Proof. unfold py_range. now rewrite length_map, length_seq. Qed.

(** The 1-D interval of grid column (or row) [c] out of [n], of cell width
    [s], the last one reaching [w]. *)
Definition interval (n s w c x : Z) : bool :=
  (c * s <=? x) && (x <? if c <? n - 1 then c * s + s else w).

Lemma interval_prefix (n s w x : Z) : 0 <= s ->
  forall k, 0 <= k -> k <= n - 1 ->
  countb (fun c => interval n s w c x) (py_range k) =
  if (0 <=? x) && (x <? k * s) then 1%nat else 0%nat.
Proof.
  intros Hs k Hk. pattern k; apply natlike_ind; [| |exact Hk]; clear k Hk.
  - intros _. rewrite Z.mul_0_l. unfold countb; simpl.
    destruct (Z.leb_spec 0 x), (Z.ltb_spec x 0); simpl; lia.
  - intros k Hk IH Hkn.
    rewrite py_range_snoc by exact Hk. rewrite countb_app, IH by lia.
    unfold countb; simpl. unfold interval.
    replace (k <? n - 1) with true by (symmetry; apply Z.ltb_lt; lia).
    replace (Z.succ k * s) with (k * s + s) by ring.
    assert (0 <= k * s) by nia.
    destruct (Z.leb_spec 0 x), (Z.ltb_spec x (k * s)), (Z.leb_spec (k * s) x),
      (Z.ltb_spec x (k * s + s)); simpl; lia.
Qed.

Lemma interval_count (n s w x : Z) : 1 <= n -> 0 <= s -> n * s <= w ->
  countb (fun c => interval n s w c x) (py_range n) =
  if (0 <=? x) && (x <? w) then 1%nat else 0%nat.
Proof.
  intros Hn Hs Hw.
  replace (py_range n) with (py_range (Z.succ (n - 1))) by (f_equal; lia).
  rewrite py_range_snoc by lia. rewrite countb_app.
  rewrite (interval_prefix n s w x Hs (n - 1)) by lia.
  unfold countb; simpl. unfold interval.
  replace (n - 1 <? n - 1) with false by (symmetry; apply Z.ltb_ge; lia).
  assert (0 <= (n - 1) * s) by nia.
  assert ((n - 1) * s <= w) by nia.
  destruct (Z.leb_spec 0 x), (Z.ltb_spec x ((n - 1) * s)), (Z.leb_spec ((n - 1) * s) x),
    (Z.ltb_spec x w); simpl; lia.
Qed.

(** C3: for a non-zero [segment_size] (the claim divides by it) and an
    image of width [w] and height [h], [_create_image_segments] yields
    [rows * cols] crop boxes, [cols = max(1, w // segment_size)] and
    [rows = max(1, h // segment_size)]; the box of cell [(row, col)] starts
    at [(col * (w // cols), row * (h // rows))], has that cell size, and
    the last column and row extend to the image edge; every pixel of the
    image lies in exactly one box and no box holds a pixel outside it. *)
Theorem create_image_segments_tile (width height segment_size : Z) :
  0 <= width -> 0 <= height -> segment_size <> 0 ->
  Z.max width height > segment_size ->
  let cols := Z.max 1 (width / segment_size) in
  let rows := Z.max 1 (height / segment_size) in
  let segment_width := width / cols in
  let segment_height := height / rows in
  exists segs : list Box,
    create_image_segments width height segment_size = Some segs /\
    length segs = Z.to_nat (rows * cols) /\
    (forall b : Box, In b segs <->
       exists row col, 0 <= row < rows /\ 0 <= col < cols /\
         b = mkBox (col * segment_width) (row * segment_height)
               (if col <? cols - 1 then col * segment_width + segment_width else width)
               (if row <? rows - 1 then row * segment_height + segment_height else height)) /\
    (forall x y : Z,
       countb (fun b => in_box_b b x y) segs =
       if (0 <=? x) && (x <? width) && (0 <=? y) && (y <? height) then 1%nat else 0%nat).
Proof.
  intros Hw Hh Hs _ cols rows sw sh.
  unfold create_image_segments.
  replace (segment_size =? 0) with false by (symmetry; now apply Z.eqb_neq).
  eexists. split; [reflexivity|].
  assert (Hc : 1 <= cols) by lia. assert (Hr : 1 <= rows) by lia.
  assert (Hsw : 0 <= sw) by (apply Z.div_pos; lia).
  assert (Hsh : 0 <= sh) by (apply Z.div_pos; lia).
  assert (Hcw : cols * sw <= width) by (apply Z.mul_div_le; lia).
  assert (Hrh : rows * sh <= height) by (apply Z.mul_div_le; lia).
  fold cols rows sw sh.
  split; [|split].
  - rewrite length_flat_map.
    rewrite Z2Nat.inj_mul by lia.
    rewrite <- (length_py_range rows). rewrite <- (length_py_range cols).
    induction (py_range rows) as [|r l IH]; simpl; [reflexivity|].
    rewrite length_map, IH. lia.
  - intros b. rewrite in_flat_map. split.
    + intros [row [Hrow Hb]]. apply in_map_iff in Hb as [col [<- Hcol]].
      apply in_py_range in Hrow, Hcol. exists row, col. repeat split; lia.
    + intros [row [col [Hrow [Hcol ->]]]]. exists row.
      split; [now apply in_py_range|]. apply in_map_iff. exists col.
      split; [reflexivity|now apply in_py_range].
  - intros x y.
    rewrite countb_flat_map.
    transitivity (list_sum (map (fun row => if interval rows sh height row y
                                 then countb (fun c => interval cols sw width c x) (py_range cols)
                                 else 0%nat) (py_range rows))).
    { f_equal. apply map_ext. intros row.
      rewrite countb_map. rewrite <- countb_and_const. reflexivity. }
    rewrite list_sum_select, !interval_count by lia.
    destruct (0 <=? x), (x <? width), (0 <=? y), (y <? height); reflexivity.
Qed.

(** Witness: the 2000 x 1600 page with segments of 800. *)
Lemma create_image_segments_tile_witness :
  let cols := Z.max 1 (2000 / 800) in
  let rows := Z.max 1 (1600 / 800) in
  let segment_width := 2000 / cols in
  let segment_height := 1600 / rows in
  exists segs : list Box,
    create_image_segments 2000 1600 800 = Some segs /\
    length segs = Z.to_nat (rows * cols) /\
    (forall b : Box, In b segs <->
       exists row col, 0 <= row < rows /\ 0 <= col < cols /\
         b = mkBox (col * segment_width) (row * segment_height)
               (if col <? cols - 1 then col * segment_width + segment_width else 2000)
               (if row <? rows - 1 then row * segment_height + segment_height else 1600)) /\
    (forall x y : Z,
       countb (fun b => in_box_b b x y) segs =
       if (0 <=? x) && (x <? 2000) && (0 <=? y) && (y <? 1600) then 1%nat else 0%nat).
Proof.
  apply (create_image_segments_tile 2000 1600 800); lia.
Defined.

End SegmenterFacts.

(* ------------------------------------------------------------------ *)
(** ** Theorems on the quality score *)

Module QualityFacts.

Import Quality Reference.

Lemma Qltb_true (a b : Q) : Py.Qltb a b = true -> (a < b)%Q.
Proof.
  unfold Py.Qltb. intros H. apply negb_true_iff in H.
  apply Qnot_le_lt. intros Hle. apply Qle_bool_iff in Hle. congruence.
Qed.

Lemma Qltb_false (a b : Q) : Py.Qltb a b = false -> (b <= a)%Q.
Proof.
  unfold Py.Qltb. intros H. apply negb_false_iff in H. now apply Qle_bool_iff.
Qed.

Lemma clamp_range (v : Q) : (0 <= Py.min 100 (Py.max 0 v) <= 100)%Q.
Proof.
  unfold Py.min, Py.max.
  destruct (Py.Qltb 0 v) eqn:H0.
  - apply Qltb_true in H0.
    destruct (Py.Qltb v 100) eqn:H1.
    + apply Qltb_true in H1. split; apply Qlt_le_weak; assumption.
    + split; discriminate.
  - destruct (Py.Qltb 0 100) eqn:H1; split; discriminate.
Qed.

(** C4, as stated, fails: when [cv2.Laplacian] raises inside
    [_calculate_sharpness], that helper returns a sharpness of 0 and the
    score is computed from the formula (here 12), not the default 50. *)
Lemma laplacian_failure_not_default :
  laplacian_var probe_laplacian_fails = None /\
  (quality_score_of (assess_image_quality probe_laplacian_fails) == 12)%Q /\
  ~ (quality_score_of (assess_image_quality probe_laplacian_fails) == 50)%Q.
Proof.
  split; [reflexivity|]. split; [vm_compute; reflexivity|].
  vm_compute. discriminate.
Qed.

(** C4, amended: the quality score is always in [0, 100]; when the
    grayscale conversion and its statistics succeed it is
    [min(100, max(0, min(resolution/1e6,30) + min(contrast/50,20) +
    min(sharpness/100,25) + min(text_density*100,15) + max(0, 10 - noise/10)))],
    where a sharpness, text-density or noise computation that raises counts
    as 0; when the grayscale step raises, the score is the default 50. *)
Theorem assess_image_quality_score (p : ImageProbe) :
  (0 <= quality_score_of (assess_image_quality p) <= 100)%Q /\
  (gray_stats p = None -> qd_quality_score (assess_image_quality p) = Some 50%Q) /\
  (forall std mean : Q, gray_stats p = Some (std, mean) ->
     qd_quality_score (assess_image_quality p) =
     Some (Py.min 100 (Py.max 0
       (score_terms (mkMetrics (fst (image_size p) * snd (image_size p)) std mean
          (default 0%Q (laplacian_var p)) (default 0%Q (edge_fraction p))
          (default 0%Q (highpass_std p))))))).
Proof.
  unfold assess_image_quality, quality_score_of.
  split; [|split].
  - destruct (gray_stats p) as [[std mean]|]; simpl; [apply clamp_range|].
    split; discriminate.
  - intros ->. reflexivity.
  - intros std mean ->. reflexivity.
Qed.

End QualityFacts.

(* ------------------------------------------------------------------ *)
(** ** Theorems on the result cache *)

Module CacheFacts.

Import Converter Reference.

Lemma universal_newlines_no_cr (l : list ascii) :
  ~ In "013"%char l -> universal_newlines l = l.
Proof.
  induction l as [|c l IH]; intros Hcr; [reflexivity|].
  assert (Hc : c <> "013"%char) by (intros ->; apply Hcr; now left).
  assert (Hl : ~ In "013"%char l) by (intros H; apply Hcr; now right).
  destruct (ascii_dec c "013"%char) as [->|_]; [contradiction|].
  transitivity (c :: universal_newlines l).
  - destruct c as [[] [] [] [] [] [] [] []]; try reflexivity; contradiction.
  - now rewrite IH.
Qed.

Lemma get_after_written_save (cfg : Config) write readable fs cache_key text :
  enable_caching cfg = true ->
  write (cache_file cfg cache_key) text = Written ->
  readable (cache_file cfg cache_key) text = true ->
  get_cached_result cfg readable (save_cached_result cfg write fs cache_key text) cache_key =
    Some (read_text text).
Proof.
  intros Hc Hw Hr. unfold get_cached_result, save_cached_result. rewrite Hc, Hw. simpl.
  now rewrite lookup_insert_eq, Hr.
Qed.




End CacheFacts.

(* ------------------------------------------------------------------ *)
(** ** Theorems on the vision attempts *)

Module AttemptFacts.

Import Tracker Quality Segmenter Converter Pipeline Reference.

(** C7 fails on the code: a 200 reply whose content strips to nothing
    leaves the tracker untouched, neither a success nor a failure is
    recorded for that attempt. *)
Lemma blank_reply_not_recorded :
  enable_smart_model_selection default_config = true /\
  reply (ollama_chat env_blank_reply "llava:latest" "page1.jpg" 120) =
    Http 200 [JContent "   "] /\
  match try_vision_model env_blank_reply default_config "llava:latest" "page1.jpg"
          no_quality world0 with
  | (r, w') => r = Ok None /\ performance_data w' = performance_data world0
  end.
Proof. vm_compute. repeat split; reflexivity. Qed.

End AttemptFacts.

(* ------------------------------------------------------------------ *)
(** ** Theorems on the per-page pipeline and [convert] *)

Module PipelineFacts.

Import Tracker Quality Segmenter Converter Pipeline Reference.

Ltac run_m :=
  unfold bind, ret, raise, try_except, lift_opt, log_call, update_tracker,
    note_success, note_failure, read_files, read_tracker, update_files in *;
  simpl in *.

(** A computation that only appends vision calls to the call log. *)
Definition vision_only {A} (c : M A) : Prop :=
  forall w, exists l, ocr_calls (snd (c w)) = ocr_calls w ++ l /\ Forall is_vision_call l.

Lemma vo_ret {A} (a : A) : vision_only (ret a).
Proof. intros w. exists []. split; [now rewrite app_nil_r|constructor]. Qed.

Lemma vo_raise {A} : vision_only (@raise A).
Proof. intros w. exists []. split; [now rewrite app_nil_r|constructor]. Qed.

Lemma vo_bind {A B} (c : M A) (k : A -> M B) :
  vision_only c -> (forall a, vision_only (k a)) -> vision_only (bind c k).
Proof.
  intros Hc Hk w. unfold bind.
  destruct (Hc w) as [l1 [H1 F1]]. destruct (c w) as [[a|] w1] eqn:E; simpl in *.
  - destruct (Hk a w1) as [l2 [H2 F2]]. exists (l1 ++ l2).
    split; [now rewrite H2, H1, app_assoc|]. apply Forall_app; now split.
  - exists l1. now split.
Qed.

Lemma vo_try {A} (c h : M A) :
  vision_only c -> vision_only h -> vision_only (try_except c h).
Proof.
  intros Hc Hh w. unfold try_except.
  destruct (Hc w) as [l1 [H1 F1]]. destruct (c w) as [[a|] w1] eqn:E; simpl in *.
  - exists l1. now split.
  - destruct (Hh w1) as [l2 [H2 F2]]. exists (l1 ++ l2).
    split; [now rewrite H2, H1, app_assoc|]. apply Forall_app; now split.
Qed.

Lemma vo_lift_opt {A} (o : option A) : vision_only (lift_opt o).
Proof. destruct o; [apply vo_ret|apply vo_raise]. Qed.

Lemma vo_update_tracker f : vision_only (update_tracker f).
Proof. intros w. exists []. split; [simpl; now rewrite app_nil_r|constructor]. Qed.

Lemma vo_read_tracker : vision_only read_tracker.
Proof. intros w. exists []. split; [simpl; now rewrite app_nil_r|constructor]. Qed.

Lemma vo_log_vision model b : vision_only (log_call (CallVision model b)).
Proof. intros w. exists [CallVision model b]. split; [reflexivity|]. repeat constructor. Qed.

Lemma vo_mapM {A B} (f : A -> M B) (l : list A) :
  (forall a, In a l -> vision_only (f a)) -> vision_only (mapM f l).
Proof.
  induction l as [|a l IH]; intros Hf; simpl; [apply vo_ret|].
  apply vo_bind; [apply Hf; now left|]. intros b.
  apply vo_bind; [apply IH; intros; apply Hf; now right|]. intros; apply vo_ret.
Qed.

Create HintDb vision_only.
#[local] Hint Resolve vo_ret vo_raise vo_bind vo_try vo_lift_opt vo_update_tracker
  vo_read_tracker vo_log_vision : vision_only.

Section Stage.

Variable E : Env.
Variable cfg : Config.

Lemma vo_note_success model t now : vision_only (note_success cfg model t now).
Proof. unfold note_success. destruct (enable_smart_model_selection cfg); auto with vision_only. Qed.

Lemma vo_note_failure model now : vision_only (note_failure cfg model now).
Proof. unfold note_failure. destruct (enable_smart_model_selection cfg); auto with vision_only. Qed.

#[local] Hint Resolve vo_note_success vo_note_failure : vision_only.

Lemma vo_try_vision_model model b qd : vision_only (try_vision_model E cfg model b qd).
Proof.
  unfold try_vision_model. apply vo_try; [|auto with vision_only].
  apply vo_bind; [auto with vision_only|]. intros _.
  destruct (reply _) as [|status lines]; [auto with vision_only|].
  destruct (status =? 200); [|auto with vision_only].
  apply vo_bind; [auto with vision_only|]. intros [|p ps]; [auto with vision_only|].
  destruct (Py.truthy _); auto with vision_only.
Qed.

Lemma vo_try_models models b qd : vision_only (try_models E cfg models b qd).
Proof.
  induction models as [|m ms IH]; simpl; [auto with vision_only|].
  apply vo_bind; [apply vo_try_vision_model|]. intros [t|]; auto with vision_only.
Qed.

Lemma vo_get_smart : vision_only (get_smart_model_selection cfg).
Proof.
  unfold get_smart_model_selection. destruct (enable_smart_model_selection cfg);
    auto with vision_only.
Qed.

#[local] Hint Resolve vo_try_models vo_get_smart : vision_only.

Lemma vo_single_image image qd : vision_only (process_single_image_advanced E cfg image qd).
Proof.
  unfold process_single_image_advanced.
  apply vo_try; [|auto with vision_only].
  apply vo_bind; [auto with vision_only|]. intros b.
  apply vo_bind; [auto with vision_only|]. intros ms.
  apply vo_bind; [auto with vision_only|]. intros [[t m]|]; auto with vision_only.
Qed.

Lemma vo_single_segment seg qd : vision_only (process_single_segment_advanced E cfg seg qd).
Proof.
  unfold process_single_segment_advanced.
  apply vo_try; [|auto with vision_only].
  apply vo_bind; [auto with vision_only|]. intros b.
  apply vo_bind; [auto with vision_only|]. intros ms.
  apply vo_bind; [auto with vision_only|]. intros [[t m]|]; auto with vision_only.
Qed.

Lemma vo_segments_map segs qd :
  vision_only (mapM (fun seg => process_single_segment_advanced E cfg seg qd) segs).
Proof. apply vo_mapM. intros; apply vo_single_segment. Qed.

#[local] Hint Resolve vo_single_image vo_segments_map : vision_only.

Lemma vo_vision_stage image_data qd :
  vision_only (process_image_with_advanced_vision_ocr E cfg image_data qd).
Proof.
  unfold process_image_with_advanced_vision_ocr.
  apply vo_try; [|auto with vision_only].
  apply vo_bind; [auto with vision_only|]. intros image.
  destruct (img_size E image) as [width height].
  destruct (segment_size cfg <? Z.max width height); [|auto with vision_only].
  unfold process_image_with_segmentation_advanced.
  apply vo_try; [|auto with vision_only].
  destruct (img_size E image) as [w0 h0].
  apply vo_bind; [auto with vision_only|]. intros boxes.
  destruct (enable_parallel cfg && _).
  - unfold process_segments_parallel_advanced.
    apply vo_try; [|auto with vision_only].
    apply vo_bind; [auto with vision_only|]. intros texts.
    destruct (pool_timed_out E _); auto with vision_only.
  - unfold process_segments_sequential_advanced.
    apply vo_try; [|auto with vision_only].
    apply vo_bind; auto with vision_only.
Qed.

Lemma bind_ok {A B} (c : M A) (k : A -> M B) w a w1 :
  c w = (Ok a, w1) -> bind c k w = k a w1.
Proof. intros H. unfold bind. now rewrite H. Qed.

Lemma try_ok {A} (c h : M A) w a w1 :
  c w = (Ok a, w1) -> try_except c h w = (Ok a, w1).
Proof. intros H. unfold try_except. now rewrite H. Qed.

Lemma try_raise {A} (c h : M A) w w1 :
  c w = (Raise, w1) -> try_except c h w = h w1.
Proof. intros H. unfold try_except. now rewrite H. Qed.

Lemma note_failure_ok model now w :
  exists w', note_failure cfg model now w = (Ok tt, w').
Proof. unfold note_failure. destruct (enable_smart_model_selection cfg); eexists; reflexivity. Qed.

Lemma try_vision_model_fails model b qd w :
  attempt_fails (ollama_chat E model b (get_adaptive_timeout cfg qd)) ->
  exists w', try_vision_model E cfg model b qd w = (Ok None, w').
Proof.
  unfold try_vision_model, attempt_fails. intros H.
  destruct (ollama_chat E model b _) as [rp el fin]; simpl in *.
  assert (Hfail : forall w0, exists w',
    (let! _ := note_failure cfg model fin in ret None) w0 = (Ok (@None string), w')).
  { intros w0. destruct (note_failure_ok model fin w0) as [w1 Hn].
    rewrite (bind_ok _ _ _ _ _ Hn). eexists; reflexivity. }
  destruct rp as [|st lines].
  - rewrite try_raise with (w1 := mkWorld (performance_data w) (files w)
      (ocr_calls w ++ [CallVision model b])); [apply Hfail|reflexivity].
  - destruct (Z.eqb_spec st 200) as [->|Hne].
    + destruct H as [H|H]; [congruence|].
      destruct (content_parts lines) as [[|p ps]|] eqn:Ec.
      * eexists. apply try_ok. unfold bind, log_call. simpl. reflexivity.
      * eexists. apply try_ok. unfold bind, log_call. simpl.
        unfold ret. simpl in H |- *. rewrite H. reflexivity.
      * rewrite try_raise with (w1 := mkWorld (performance_data w) (files w)
          (ocr_calls w ++ [CallVision model b])); [apply Hfail|].
        unfold bind, log_call. simpl. reflexivity.
    + destruct (note_failure_ok model fin (mkWorld (performance_data w) (files w)
          (ocr_calls w ++ [CallVision model b]))) as [w1 Hn].
      exists w1. apply try_ok. unfold bind at 1, log_call. simpl.
      now rewrite (bind_ok _ _ _ _ _ Hn).
Qed.

Lemma try_models_fails models b qd :
  (forall model, In model models ->
     attempt_fails (ollama_chat E model b (get_adaptive_timeout cfg qd))) ->
  forall w, exists w', try_models E cfg models b qd w = (Ok None, w').
Proof.
  induction models as [|m ms IH]; intros H w; simpl; [eexists; reflexivity|].
  destruct (try_vision_model_fails m b qd w) as [w1 H1]; [apply H; now left|].
  rewrite (bind_ok _ _ _ _ _ H1). apply IH. intros; apply H; now right.
Qed.

Lemma get_smart_subset w :
  exists ms, get_smart_model_selection cfg w = (Ok ms, w) /\
    forall m, In m ms -> In m (fallback_vision_models cfg).
Proof.
  unfold get_smart_model_selection. destruct (enable_smart_model_selection cfg).
  - eexists. split; [reflexivity|]. intros m Hm. unfold get_model_rankings in Hm.
    eapply Permutation_in; [apply TrackerFacts.sorted_desc_perm|exact Hm].
  - eexists. split; [reflexivity|]. tauto.
Qed.

Lemma single_image_fails image qd :
  (forall b, save_jpeg E image = Some b -> forall model, In model (fallback_vision_models cfg) ->
     attempt_fails (ollama_chat E model b (get_adaptive_timeout cfg qd))) ->
  forall w, exists method w',
    process_single_image_advanced E cfg image qd w = (Ok (""%string, method), w').
Proof.
  intros H w. unfold process_single_image_advanced.
  destruct (save_jpeg E image) as [b|] eqn:Es.
  - destruct (get_smart_subset w) as [ms [Hms Hin]].
    destruct (try_models_fails ms b qd) with (w := w) as [w1 H1].
    { intros m Hm. apply (H b eq_refl). now apply Hin. }
    do 2 eexists. apply try_ok.
    rewrite bind_ok with (a := b) (w1 := w); [|reflexivity].
    rewrite (bind_ok _ _ _ _ _ Hms). rewrite (bind_ok _ _ _ _ _ H1). reflexivity.
  - do 2 eexists. rewrite try_raise with (w1 := w); [reflexivity|reflexivity].
Qed.

Lemma single_segment_fails seg qd :
  (forall b, save_jpeg E seg = Some b -> forall model, In model (fallback_vision_models cfg) ->
     attempt_fails (ollama_chat E model b (get_adaptive_timeout cfg qd))) ->
  forall w, exists w',
    process_single_segment_advanced E cfg seg qd w = (Ok ""%string, w').
Proof.
  intros H w. unfold process_single_segment_advanced.
  destruct (save_jpeg E seg) as [b|] eqn:Es.
  - destruct (get_smart_subset w) as [ms [Hms Hin]].
    destruct (try_models_fails ms b qd) with (w := w) as [w1 H1].
    { intros m Hm. apply (H b eq_refl). now apply Hin. }
    eexists. apply try_ok.
    rewrite bind_ok with (a := b) (w1 := w); [|reflexivity].
    rewrite (bind_ok _ _ _ _ _ Hms). rewrite (bind_ok _ _ _ _ _ H1). reflexivity.
  - eexists. rewrite try_raise with (w1 := w); [reflexivity|reflexivity].
Qed.

Lemma segments_fail segs qd :
  (forall seg b, In seg segs -> save_jpeg E seg = Some b ->
     forall model, In model (fallback_vision_models cfg) ->
     attempt_fails (ollama_chat E model b (get_adaptive_timeout cfg qd))) ->
  forall w, exists texts w',
    mapM (fun seg => process_single_segment_advanced E cfg seg qd) segs w = (Ok texts, w') /\
    List.Forall (fun t => t = ""%string) texts /\ length texts = length segs.
Proof.
  induction segs as [|s ss IH]; intros H w; simpl.
  - do 2 eexists. split; [reflexivity|]. split; [constructor|reflexivity].
  - destruct (single_segment_fails s qd) with (w := w) as [w1 H1].
    { intros b Hb. apply (H s b); [now left|exact Hb]. }
    destruct (IH) with (w := w1) as [ts [w2 [H2 [F2 L2]]]].
    { intros seg b Hs. apply H. now right. }
    rewrite (bind_ok _ _ _ _ _ H1), (bind_ok _ _ _ _ _ H2).
    do 2 eexists. split; [reflexivity|]. split; [now constructor|simpl; now f_equal].
Qed.

End Stage.

Lemma combine_all_empty (l : list (Z * string)) :
  List.Forall (fun p => snd p = ""%string) l -> Combine.combine_segment_texts l = ""%string.
Proof.
  intros H. unfold Combine.combine_segment_texts.
  assert (Hs : List.Forall (fun p => snd p = ""%string) (Combine.sort_by_index l)).
  { eapply Permutation_Forall; [symmetry; apply CombineFacts.sort_by_index_perm|exact H]. }
  assert (Hc : forall l', List.Forall (fun p => snd p = ""%string) l' -> Combine.collect l' = []).
  { intros l' Hl'. induction Hl' as [|[i t] l' Ht Hs' IH]; [reflexivity|].
    simpl in Ht |- *. subst t. exact IH. }
  now rewrite (Hc _ Hs).
Qed.

Lemma nth_all_empty (texts : list string) i :
  List.Forall (fun t => t = ""%string) texts -> nth i texts ""%string = ""%string.
Proof.
  intros H. destruct (nth_in_or_default i texts ""%string) as [Hin|Hd]; [|exact Hd].
  rewrite List.Forall_forall in H. now apply H.
Qed.

Lemma in_zip_snd {A B} (l1 : list A) (l2 : list B) p :
  In p (zip l1 l2) -> In (snd p) l2.
Proof.
  revert l2. induction l1 as [|a l1 IH]; intros [|b l2] Hp; simpl in *; try tauto.
  destruct Hp as [<-|Hp]; [now left|right; now apply IH].
Qed.

Lemma lookup_map {A B} (f : A -> B) (l : list A) i :
  map f l !! i = option_map f (l !! i).
Proof. revert i. induction l as [|a l IH]; intros [|i]; simpl; auto. Qed.

Lemma try_ret_ok {A} (c : M A) (a : A) w :
  exists r w', try_except c (ret a) w = (Ok r, w').
Proof. unfold try_except. destruct (c w) as [[r|] w']; eexists _, _; reflexivity. Qed.

Lemma mapM_length {A B} (f : A -> M B) l w rs w' :
  mapM f l w = (Ok rs, w') -> length rs = length l.
Proof.
  revert w rs w'. induction l as [|a l IH]; intros w rs w' Hm; simpl in Hm.
  - unfold ret in Hm. now injection Hm as <- _.
  - unfold bind, ret in Hm. destruct (f a w) as [[y|] w1]; [|discriminate].
    destruct (mapM f l w1) as [[ys|] w2] eqn:Em; [|discriminate].
    injection Hm as <- _. simpl. f_equal. eapply IH; exact Em.
Qed.

(** The [j]-th result of [mapM f l] is what [f] returns on the [j]-th
    element, run in the world left by the elements before it. *)
Lemma mapM_lookup {A B} (f : A -> M B) l w rs w' j x :
  mapM f l w = (Ok rs, w') -> l !! j = Some x ->
  exists y, rs !! j = Some y /\ fst (f x (snd (mapM f (take j l) w))) = Ok y.
Proof.
  revert w rs w' j. induction l as [|a l IH]; intros w rs w' j Hm Hj;
    [simpl in Hj; discriminate|].
  simpl in Hm. unfold bind at 1 in Hm. destruct (f a w) as [[y|] w1] eqn:Ef; [|discriminate].
  unfold bind, ret in Hm.
  destruct (mapM f l w1) as [[ys|] w2] eqn:Em; [|discriminate].
  injection Hm as <- _.
  destruct j as [|j].
  - simpl in Hj. injection Hj as <-. exists y. split; [reflexivity|].
    simpl. now rewrite Ef.
  - simpl in Hj. destruct (IH w1 ys w2 j Em Hj) as [y' [Hy' Hf]].
    exists y'. split; [exact Hy'|].
    change (mapM f (take (S j) (a :: l)) w) with
      (bind (f a) (fun y => bind (mapM f (take j l)) (fun ys => ret (y :: ys))) w).
    rewrite (bind_ok _ _ _ _ _ Ef). unfold bind at 1.
    destruct (mapM f (take j l) w1) as [[|] w3] eqn:Et; simpl in *; exact Hf.
Qed.

Section Page.

Variable E : Env.
Variable cfg : Config.

Lemma extract_text_with_tesseract_run image_data w :
  extract_text_with_tesseract E cfg image_data w =
    (Ok (tesseract_text E cfg image_data),
     if fallback_to_tesseract cfg
     then mkWorld (performance_data w) (files w) (ocr_calls w ++ [CallTesseract image_data])
     else w).
Proof.
  unfold extract_text_with_tesseract, tesseract_text.
  destruct (fallback_to_tesseract cfg); reflexivity.
Qed.

Lemma vision_stage_ok image_data qd w :
  exists r w', process_image_with_advanced_vision_ocr E cfg image_data qd w = (Ok r, w').
Proof. apply try_ret_ok. Qed.

(** The vision stage of a page yields the empty text when no model can
    read any image it sends. *)
Lemma vision_stage_fails image_data qd :
  (forall model b, In model (fallback_vision_models cfg) ->
     In b (vision_payloads E cfg image_data) ->
     attempt_fails (ollama_chat E model b (get_adaptive_timeout cfg qd))) ->
  forall w, exists method w',
    process_image_with_advanced_vision_ocr E cfg image_data qd w = (Ok (""%string, method), w').
Proof.
  intros H w. unfold process_image_with_advanced_vision_ocr.
  destruct (image_open E image_data) as [image|] eqn:Eo.
  2: { do 2 eexists. rewrite try_raise with (w1 := w); reflexivity. }
  unfold vision_payloads in H. rewrite Eo in H.
  destruct (img_size E image) as [wd ht] eqn:Esz.
  destruct (segment_size cfg <? Z.max wd ht) eqn:Eseg.
  - assert (Hseg : exists method w', process_image_with_segmentation_advanced E cfg image qd w
                                     = (Ok (""%string, method), w')).
    { unfold process_image_with_segmentation_advanced. rewrite Esz.
      destruct (create_image_segments wd ht (segment_size cfg)) as [boxes|] eqn:Ecs.
      2: { do 2 eexists. rewrite try_raise with (w1 := w); reflexivity. }
      destruct (segments_fail E cfg (map (crop E image) boxes) qd) with (w := w)
        as [texts [w1 [Hm [Ht Hl]]]].
      { intros seg b Hs Hb model Hmod. apply H; [exact Hmod|].
        apply in_map_iff in Hs as [bx [<- Hbx]]. apply in_flat_map.
        exists bx. split; [exact Hbx|]. rewrite Hb. now left. }
      destruct (enable_parallel cfg && (1 <? length (map (crop E image) boxes))%nat) eqn:Epar.
      - unfold process_segments_parallel_advanced.
        destruct (pool_timed_out E (length (map (crop E image) boxes))) eqn:Ept.
        + do 2 eexists. apply try_ok.
          rewrite bind_ok with (a := boxes) (w1 := w) by reflexivity. cbv beta iota. rewrite Epar.
          rewrite try_raise with (w1 := w1); [reflexivity|].
          rewrite (bind_ok _ _ _ _ _ Hm). now rewrite Ept.
        + do 2 eexists. apply try_ok.
          rewrite bind_ok with (a := boxes) (w1 := w) by reflexivity. cbv beta iota. rewrite Epar.
          apply try_ok. rewrite (bind_ok _ _ _ _ _ Hm). rewrite Ept.
          rewrite combine_all_empty; [reflexivity|].
          apply List.Forall_forall. intros p Hp. apply in_map_iff in Hp as [i [<- _]].
          simpl. now apply nth_all_empty.
      - unfold process_segments_sequential_advanced.
        do 2 eexists. apply try_ok.
        rewrite bind_ok with (a := boxes) (w1 := w) by reflexivity. cbv beta iota. rewrite Epar.
        apply try_ok. rewrite (bind_ok _ _ _ _ _ Hm).
        rewrite combine_all_empty; [reflexivity|].
        apply List.Forall_forall. intros p Hp. apply in_zip_snd in Hp.
        rewrite List.Forall_forall in Ht. now apply Ht. }
    destruct Hseg as [method [w' Hseg]].
    exists method, w'. apply try_ok.
    rewrite bind_ok with (a := image) (w1 := w) by reflexivity.
    rewrite Esz. cbv beta iota. rewrite Eseg. exact Hseg.
  - destruct (single_image_fails E cfg image qd) with (w := w) as [method [w' Hs]].
    { intros b Hb model Hmod. apply H; [exact Hmod|]. rewrite Hb. now left. }
    exists method, w'. apply try_ok.
    rewrite bind_ok with (a := image) (w1 := w) by reflexivity.
    rewrite Esz. cbv beta iota. rewrite Eseg. exact Hs.
Qed.

(** On a cache miss, the page runs the local OCR step and then, unless it
    read more than 50 characters, the vision stage. *)
Lemma process_page_fresh image_data qd w r w2 :
  Py.truthy (default ""%string (get_cached_result cfg (cache_readable E) (files w) (md5_hexdigest E image_data)))
    = false ->
  (String.length (Py.strip (tesseract_text E cfg image_data)) <= 50)%nat ->
  process_image_with_advanced_vision_ocr E cfg image_data qd
    (if fallback_to_tesseract cfg
     then mkWorld (performance_data w) (files w) (ocr_calls w ++ [CallTesseract image_data])
     else w) = (Ok r, w2) ->
  fst r = ""%string ->
  process_page E cfg (image_data, qd) w = (Ok r, w2).
Proof.
  intros Hc Hlen Hv Hr. unfold process_page.
  rewrite bind_ok with (a := files w) (w1 := w) by reflexivity.
  assert (Hfresh : forall t, Py.truthy t = false ->
            (if Py.truthy t then ret (t, "Cached Result"%string) else ret (""%string, ""%string))
            = ret (""%string, ""%string)).
  { intros t Ht. now rewrite Ht. }
  destruct (get_cached_result cfg (cache_readable E) (files w) (md5_hexdigest E image_data)) as [c|];
    simpl in Hc; [rewrite Hc|];
  (rewrite (bind_ok _ _ _ _ _ (extract_text_with_tesseract_run image_data w));
   apply Nat.ltb_ge in Hlen; rewrite Hlen, andb_false_r;
   rewrite (bind_ok _ _ _ _ _ Hv); destruct r as [t m]; simpl in Hr; subst t; reflexivity).
Qed.

(** The world after the local OCR step of a page. *)
Definition after_tesseract (image_data : string) (w : World) : World :=
  if fallback_to_tesseract cfg
  then mkWorld (performance_data w) (files w) (ocr_calls w ++ [CallTesseract image_data])
  else w.

(** The end of a fresh page: a non-empty text is saved to the cache. *)
Definition after_save (key page_text : string) (w : World) : World :=
  if Py.truthy page_text
  then mkWorld (performance_data w) (save_cached_result cfg (cache_write E) (files w) key page_text)
         (ocr_calls w)
  else w.

Lemma process_page_miss_long image_data qd w :
  Py.truthy (default ""%string (get_cached_result cfg (cache_readable E) (files w) (md5_hexdigest E image_data)))
    = false ->
  Py.truthy (tesseract_text E cfg image_data) &&
    (50 <? String.length (Py.strip (tesseract_text E cfg image_data)))%nat = true ->
  process_page E cfg (image_data, qd) w =
    (Ok (tesseract_text E cfg image_data, "Traditional OCR (Tesseract)"%string),
     after_save (md5_hexdigest E image_data) (tesseract_text E cfg image_data)
       (after_tesseract image_data w)).
Proof.
  intros Hc Hl. unfold process_page.
  rewrite bind_ok with (a := files w) (w1 := w) by reflexivity.
  destruct (get_cached_result cfg (cache_readable E) (files w) (md5_hexdigest E image_data)) as [c|];
    simpl in Hc; [rewrite Hc|];
  (rewrite (bind_ok _ _ _ _ _ (extract_text_with_tesseract_run image_data w));
   rewrite Hl; unfold after_save, after_tesseract; cbn [bind ret];
   destruct (Py.truthy (tesseract_text E cfg image_data)); reflexivity).
Qed.

Lemma process_page_miss_vision image_data qd w page_text method w2 :
  Py.truthy (default ""%string (get_cached_result cfg (cache_readable E) (files w) (md5_hexdigest E image_data)))
    = false ->
  Py.truthy (tesseract_text E cfg image_data) &&
    (50 <? String.length (Py.strip (tesseract_text E cfg image_data)))%nat = false ->
  process_image_with_advanced_vision_ocr E cfg image_data qd (after_tesseract image_data w)
    = (Ok (page_text, method), w2) ->
  process_page E cfg (image_data, qd) w =
    (Ok (page_text, method), after_save (md5_hexdigest E image_data) page_text w2).
Proof.
  intros Hc Hl Hv. unfold process_page.
  rewrite bind_ok with (a := files w) (w1 := w) by reflexivity.
  unfold after_tesseract in Hv.
  destruct (get_cached_result cfg (cache_readable E) (files w) (md5_hexdigest E image_data)) as [c|];
    simpl in Hc; [rewrite Hc|];
  (rewrite (bind_ok _ _ _ _ _ (extract_text_with_tesseract_run image_data w));
   rewrite Hl; rewrite (bind_ok _ _ _ _ _ Hv); unfold after_save;
   destruct (Py.truthy page_text); reflexivity).
Qed.

Lemma process_page_ok page w :
  exists r w', process_page E cfg page w = (Ok r, w').
Proof.
  destruct page as [image_data qd]. unfold process_page.
  rewrite bind_ok with (a := files w) (w1 := w) by reflexivity.
  assert (Hfresh : forall w0, exists r w',
    (let! traditional_text := extract_text_with_tesseract E cfg image_data in
     let! '(page_text, processing_method) :=
       if Py.truthy traditional_text && (50 <? String.length (Py.strip traditional_text))%nat
       then ret (traditional_text, "Traditional OCR (Tesseract)"%string)
       else process_image_with_advanced_vision_ocr E cfg image_data qd in
     let! _ :=
       if Py.truthy page_text
       then update_files (fun fs' => save_cached_result cfg (cache_write E) fs' (md5_hexdigest E image_data) page_text)
       else ret tt in
     ret (page_text, processing_method)) w0 = (Ok r, w')).
  { intros w0. rewrite (bind_ok _ _ _ _ _ (extract_text_with_tesseract_run image_data w0)).
    match goal with
    | |- context [bind (if ?b then ?x else ?y) _ ?w1] =>
        assert (Hs : exists r w2, (if b then x else y) w1 = (Ok r, w2))
          by (destruct b; [eexists _, _; reflexivity|apply vision_stage_ok])
    end.
    destruct Hs as [[pt pm] [w2 Hs]]. rewrite (bind_ok _ _ _ _ _ Hs).
    destruct (Py.truthy pt); eexists _, _; reflexivity. }
  destruct (get_cached_result cfg (cache_readable E) (files w) (md5_hexdigest E image_data)) as [c|]; [|apply Hfresh].
  destruct (Py.truthy c); [eexists _, _; reflexivity|apply Hfresh].
Qed.

(** The page loop builds [all_text] from the per-page results of
    [process_page], run one after the other. *)
Lemma process_pages_run total pages k w :
  exists rs w', mapM (process_page E cfg) pages w = (Ok rs, w') /\
    process_pages E cfg total k pages w =
      (Ok (with_separators total k (map fst rs), map snd rs, map snd pages), w').
Proof.
  revert k w. induction pages as [|[d q] ps IH]; intros k w.
  - exists [], w. split; reflexivity.
  - destruct (process_page_ok (d, q) w) as [[pt pm] [w1 H1]].
    destruct (IH (S k) w1) as [rs [w' [Hm Hp]]].
    exists ((pt, pm) :: rs), w'. split.
    + cbn [mapM]. rewrite (bind_ok _ _ _ _ _ H1), (bind_ok _ _ _ _ _ Hm). reflexivity.
    + cbn [process_pages]. rewrite (bind_ok _ _ _ _ _ H1). cbv beta iota.
      rewrite (bind_ok _ _ _ _ _ Hp). reflexivity.
Qed.

Lemma convert_image_based file_data pages w :
  analyze_pdf_type E file_data <> "text-based"%string ->
  convert_pdf_to_optimized_images_advanced E cfg file_data = Some pages ->
  forall rs w', process_pages E cfg (length pages) 0 pages w =
      (Ok (with_separators (length pages) 0 (map fst rs), map snd rs, map snd pages), w') ->
  process_image_based_with_metadata E cfg file_data w =
    (Ok (mkResult (String.concat "" (with_separators (length pages) 0 (map fst rs))) None,
         build_metadata cfg (length pages) (map snd rs) (map snd pages)), w') /\
  convert E cfg file_data w =
    (Ok (mkResult (String.concat "" (with_separators (length pages) 0 (map fst rs))) None), w').
Proof.
  intros Hnt Hopt rs w' Hp.
  assert (Hmd : process_image_based_with_metadata E cfg file_data w =
    (Ok (mkResult (String.concat "" (with_separators (length pages) 0 (map fst rs))) None,
         build_metadata cfg (length pages) (map snd rs) (map snd pages)), w')).
  { unfold process_image_based_with_metadata. rewrite Hopt.
    rewrite bind_ok with (a := pages) (w1 := w) by reflexivity.
    rewrite (bind_ok _ _ _ _ _ Hp). reflexivity. }
  split; [exact Hmd|].
  unfold convert. apply String.eqb_neq in Hnt. rewrite Hnt.
  unfold process_image_based_pdf_advanced. rewrite (bind_ok _ _ _ _ _ Hmd). reflexivity.
Qed.

Lemma optimize_pages_quality imgs pages :
  optimize_pages E cfg imgs = Some pages -> map snd pages = map (page_quality E cfg) imgs.
Proof.
  revert pages. induction imgs as [|img imgs IH]; intros pages Ho; simpl in Ho.
  - injection Ho as <-. reflexivity.
  - destruct (optimize_to_jpeg E img (page_quality E cfg img)) as [bytes|]; [|discriminate].
    destruct (optimize_pages E cfg imgs) as [tail|]; [|discriminate].
    injection Ho as <-. simpl. f_equal. now apply IH.
Qed.

Lemma page_quality_shape img :
  if enable_quality_assessment cfg
  then exists s, qd_quality_score (page_quality E cfg img) = Some s /\ (0 <= s <= 100)%Q
  else page_quality E cfg img = mkQualityData None None.
Proof.
  unfold page_quality. destruct (enable_quality_assessment cfg); [|reflexivity].
  unfold assess_image_quality.
  destruct (gray_stats (probe E img)) as [[std mean]|]; simpl.
  - eexists. split; [reflexivity|]. apply QualityFacts.clamp_range.
  - eexists. split; [reflexivity|]. split; discriminate.
Qed.

End Page.

(** C1: on an image-based document, a page on which the cache misses,
    the local OCR step reads at most 50 characters and every candidate
    vision model fails on every image sent, [convert] still returns a
    result (no exception escapes); that page contributes the empty string,
    and the text of every page is the text [process_page] produces for it
    in the world left by the pages before it, placed at its position in
    the combined markdown. *)
Theorem convert_failed_page_empty (E : Env) (cfg : Config) file_data pages i image_data qd w :
  analyze_pdf_type E file_data <> "text-based"%string ->
  convert_pdf_to_optimized_images_advanced E cfg file_data = Some pages ->
  pages !! i = Some (image_data, qd) ->
  Py.truthy (default ""%string (get_cached_result cfg (cache_readable E) (files (page_world E cfg pages w i))
                                  (md5_hexdigest E image_data))) = false ->
  (String.length (Py.strip (tesseract_text E cfg image_data)) <= 50)%nat ->
  (forall model b, In model (fallback_vision_models cfg) ->
     In b (vision_payloads E cfg image_data) ->
     attempt_fails (ollama_chat E model b (get_adaptive_timeout cfg qd))) ->
  exists texts w',
    convert E cfg file_data w =
      (Ok (mkResult (String.concat "" (with_separators (length pages) 0 texts)) None), w') /\
    length texts = length pages /\
    texts !! i = Some ""%string /\
    forall j page, pages !! j = Some page ->
      exists t method, texts !! j = Some t /\
        fst (process_page E cfg page (page_world E cfg pages w j)) = Ok (t, method).
Proof.
  intros Hnt Hopt Hi Hc Hlen Hv.
  destruct (process_pages_run E cfg (length pages) pages 0 w) as [rs [w' [Hm Hp]]].
  exists (map fst rs), w'.
  split; [exact (proj2 (convert_image_based E cfg file_data pages w Hnt Hopt rs w' Hp))|].
  assert (Hj : forall j page, pages !! j = Some page ->
            exists t method, map fst rs !! j = Some t /\
              fst (process_page E cfg page (page_world E cfg pages w j)) = Ok (t, method)).
  { intros j page Hpg. destruct (mapM_lookup _ _ _ _ _ _ _ Hm Hpg) as [[t m] [Hy Hf]].
    exists t, m. split; [rewrite lookup_map, Hy; reflexivity|exact Hf]. }
  split; [rewrite List.length_map; eapply mapM_length; exact Hm|].
  split; [|exact Hj].
  destruct (Hj i _ Hi) as [t [m [Ht Hf]]]. rewrite Ht.
  set (w0 := page_world E cfg pages w i) in *.
  destruct (vision_stage_fails E cfg image_data qd Hv
    (if fallback_to_tesseract cfg
     then mkWorld (performance_data w0) (files w0) (ocr_calls w0 ++ [CallTesseract image_data])
     else w0)) as [meth [w2 Hvis]].
  rewrite (process_page_fresh E cfg image_data qd w0 _ w2 Hc Hlen Hvis eq_refl) in Hf.
  simpl in Hf. congruence.
Qed.

Lemma convert_failed_page_empty_witness :
  exists texts w',
    convert env_two_pages default_config "doc" world0 =
      (Ok (mkResult (String.concat "" (with_separators 2 0 texts)) None), w') /\
    length texts = 2%nat /\
    texts !! 1%nat = Some ""%string /\
    forall j page, [("page1", quality_default); ("page2", quality_default)]%string !! j = Some page ->
      exists t method, texts !! j = Some t /\
        fst (process_page env_two_pages default_config page
               (page_world env_two_pages default_config
                  [("page1", quality_default); ("page2", quality_default)]%string world0 j))
        = Ok (t, method).
Proof.
  apply (convert_failed_page_empty env_two_pages default_config "doc"
           [("page1", quality_default); ("page2", quality_default)]%string 1 "page2" quality_default world0).
  - intros Hx. vm_compute in Hx. discriminate Hx.
  - reflexivity.
  - reflexivity.
  - vm_compute. reflexivity.
  - vm_compute. lia.
  - intros model b _ Hb. vm_compute in Hb. destruct Hb as [<-|[]]. vm_compute. exact I.
Defined.

(** C2 fails on the code: the page pipeline runs pytesseract once, before
    the vision stage, and never again. Here the local OCR reads a short
    text, every vision model fails, and the page ends with the empty text
    and no local OCR call after the vision calls. *)
Lemma local_ocr_not_retried_after_vision :
  fallback_to_tesseract default_config = true /\
  tesseract_text env_short_ocr default_config "page1" = "short text"%string /\
  match process_page env_short_ocr default_config ("page1", no_quality)%string world0 with
  | (r, w') => r = Ok (""%string, "Advanced Vision OCR failed"%string) /\
               tesseract_after_vision false (ocr_calls w') = false
  end.
Proof. vm_compute. repeat split; reflexivity. Qed.

(** C2, as the code does it: with the local OCR enabled and a cache miss,
    the page's call log holds exactly one local OCR call, made before every
    vision call of the page: the local OCR is not retried. When the local
    OCR reads at most 50 characters, the page's text and method are the
    ones the vision stage returns; when that text is empty, the page ends
    with the empty text (the short local text is discarded) and nothing is
    written to the cache. *)
Theorem local_ocr_once_before_vision (E : Env) (cfg : Config) w image_data qd :
  fallback_to_tesseract cfg = true ->
  Py.truthy (default ""%string (get_cached_result cfg (cache_readable E) (files w) (md5_hexdigest E image_data)))
    = false ->
  (exists l, ocr_calls (snd (process_page E cfg (image_data, qd) w)) =
               ocr_calls w ++ CallTesseract image_data :: l /\
             Forall is_vision_call l) /\
  ((String.length (Py.strip (tesseract_text E cfg image_data)) <= 50)%nat ->
   forall r w2,
     process_image_with_advanced_vision_ocr E cfg image_data qd
       (mkWorld (performance_data w) (files w) (ocr_calls w ++ [CallTesseract image_data]))
       = (Ok r, w2) ->
     fst (process_page E cfg (image_data, qd) w) = Ok r /\
     (fst r = ""%string -> process_page E cfg (image_data, qd) w = (Ok r, w2))).
Proof.
  intros Hf Hc.
  assert (Hw1 : after_tesseract cfg image_data w =
            mkWorld (performance_data w) (files w) (ocr_calls w ++ [CallTesseract image_data]))
    by (unfold after_tesseract; now rewrite Hf).
  assert (Hsave : forall key t w2, ocr_calls (after_save E cfg key t w2) = ocr_calls w2)
    by (intros key t w2; unfold after_save; now destruct (Py.truthy t)).
  split.
  - destruct (Py.truthy (tesseract_text E cfg image_data) &&
              (50 <? String.length (Py.strip (tesseract_text E cfg image_data)))%nat) eqn:Hl.
    + rewrite (process_page_miss_long E cfg image_data qd w Hc Hl). simpl.
      rewrite Hsave, Hw1. exists []. split; [reflexivity|constructor].
    + destruct (vision_stage_ok E cfg image_data qd (after_tesseract cfg image_data w))
        as [[pt pm] [w2 Hv]].
      rewrite (process_page_miss_vision E cfg image_data qd w pt pm w2 Hc Hl Hv). simpl.
      rewrite Hsave.
      destruct (vo_vision_stage E cfg image_data qd (after_tesseract cfg image_data w))
        as [l [Hl2 Fl]].
      rewrite Hv, Hw1 in Hl2. simpl in Hl2. exists l. split; [|exact Fl].
      rewrite Hl2, <- app_assoc. reflexivity.
  - intros Hlen [pt pm] w2 Hv. rewrite <- Hw1 in Hv.
    assert (Hl : Py.truthy (tesseract_text E cfg image_data) &&
              (50 <? String.length (Py.strip (tesseract_text E cfg image_data)))%nat = false)
      by (apply Nat.ltb_ge in Hlen; now rewrite Hlen, andb_false_r).
    rewrite (process_page_miss_vision E cfg image_data qd w pt pm w2 Hc Hl Hv).
    split; [reflexivity|]. simpl. intros ->. reflexivity.
Qed.

Lemma local_ocr_once_before_vision_witness :
  (exists l, ocr_calls (snd (process_page env_short_ocr default_config ("page1", no_quality) world0)) =
               ocr_calls world0 ++ CallTesseract "page1" :: l /\
             Forall is_vision_call l) /\
  ((String.length (Py.strip (tesseract_text env_short_ocr default_config "page1")) <= 50)%nat ->
   forall r w2,
     process_image_with_advanced_vision_ocr env_short_ocr default_config "page1" no_quality
       (mkWorld (performance_data world0) (files world0) (ocr_calls world0 ++ [CallTesseract "page1"]))
       = (Ok r, w2) ->
     fst (process_page env_short_ocr default_config ("page1", no_quality) world0) = Ok r /\
     (fst r = ""%string ->
      process_page env_short_ocr default_config ("page1", no_quality) world0 = (Ok r, w2)))%string.
Proof.
  apply (local_ocr_once_before_vision env_short_ocr default_config world0 "page1" no_quality).
  - reflexivity.
  - vm_compute. reflexivity.
Defined.

(** C8 fails on the code: the result [convert] returns for an
    image-based document has no metadata, and the metadata dict the
    converter builds has no timing entry. *)
Lemma convert_metadata_dropped :
  match convert env_two_pages default_config "doc" world0 with
  | (Ok res, _) => metadata res = None
  | (Raise, _) => False
  end /\
  match process_image_based_with_metadata env_two_pages default_config "doc" world0 with
  | (Ok (_, md), _) =>
      map fst md = ["processing_methods"; "total_pages"; "quality_metrics";
                    "optimization_settings"]%string
  | (Raise, _) => False
  end.
Proof. vm_compute. split; reflexivity. Qed.

(** C8, as the code does it: for an image-based document [convert]
    returns a result, and the metadata assembled with it holds the
    processing method of each page (one per page, the method
    [process_page] reports for it), the per-page quality data, the page
    count and the optimization settings, and no other entry (no timing).
    The quality data of a page is the assessment of its rendered image,
    holding a [quality_score] in [0, 100], when quality assessment is
    enabled, and [{}] otherwise. *)
Theorem image_based_metadata (E : Env) (cfg : Config) file_data pages w :
  analyze_pdf_type E file_data <> "text-based"%string ->
  convert_pdf_to_optimized_images_advanced E cfg file_data = Some pages ->
  exists res methods w',
    convert E cfg file_data w = (Ok res, w') /\
    process_image_based_with_metadata E cfg file_data w =
      (Ok (res, build_metadata cfg (length pages) methods (map snd pages)), w') /\
    length methods = length pages /\
    (forall j page, pages !! j = Some page ->
       exists t m, methods !! j = Some m /\
         fst (process_page E cfg page (page_world E cfg pages w j)) = Ok (t, m)) /\
    map fst (build_metadata cfg (length pages) methods (map snd pages)) =
      ["processing_methods"; "total_pages"; "quality_metrics"; "optimization_settings"]%string /\
    (exists imgs, render_pages E file_data = Some imgs /\
                  map snd pages = map (page_quality E cfg) imgs) /\
    Forall (fun qd => if enable_quality_assessment cfg
                      then exists s, qd_quality_score qd = Some s /\ (0 <= s <= 100)%Q
                      else qd = mkQualityData None None) (map snd pages).
Proof.
  intros Hnt Hopt.
  assert (Himgs : exists imgs, render_pages E file_data = Some imgs /\
                    map snd pages = map (page_quality E cfg) imgs).
  { unfold convert_pdf_to_optimized_images_advanced in Hopt.
    destruct (render_pages E file_data) as [imgs|]; [|discriminate].
    exists imgs. split; [reflexivity|]. now apply optimize_pages_quality. }
  destruct (process_pages_run E cfg (length pages) pages 0 w) as [rs [w' [Hm Hp]]].
  destruct (convert_image_based E cfg file_data pages w Hnt Hopt rs w' Hp) as [Hmd Hcv].
  eexists _, (map snd rs), w'. split; [exact Hcv|]. split; [exact Hmd|].
  split; [rewrite List.length_map; eapply mapM_length; exact Hm|].
  split.
  { intros j page Hpg. destruct (mapM_lookup _ _ _ _ _ _ _ Hm Hpg) as [[t m] [Hy Hf]].
    exists t, m. split; [rewrite lookup_map, Hy; reflexivity|exact Hf]. }
  split; [reflexivity|]. split; [exact Himgs|].
  destruct Himgs as [imgs [_ Hq]]. rewrite Hq.
  apply List.Forall_forall. intros qd Hin. apply in_map_iff in Hin as [img [<- _]].
  apply page_quality_shape.
Qed.

Lemma image_based_metadata_witness :
  exists res methods w',
    convert env_two_pages default_config "doc" world0 = (Ok res, w') /\
    process_image_based_with_metadata env_two_pages default_config "doc" world0 =
      (Ok (res, build_metadata default_config 2 methods (map snd [("page1", quality_default); ("page2", quality_default)]%string)), w') /\
    length methods = 2%nat /\
    (forall j page, [("page1", quality_default); ("page2", quality_default)]%string !! j = Some page ->
       exists t m, methods !! j = Some m /\
         fst (process_page env_two_pages default_config page
                (page_world env_two_pages default_config [("page1", quality_default); ("page2", quality_default)]%string world0 j)) = Ok (t, m)) /\
    map fst (build_metadata default_config 2 methods (map snd [("page1", quality_default); ("page2", quality_default)]%string)) =
      ["processing_methods"; "total_pages"; "quality_metrics"; "optimization_settings"]%string /\
    (exists imgs, render_pages env_two_pages "doc" = Some imgs /\
                  map snd [("page1", quality_default); ("page2", quality_default)]%string = map (page_quality env_two_pages default_config) imgs) /\
    Forall (fun qd => if enable_quality_assessment default_config
                      then exists s, qd_quality_score qd = Some s /\ (0 <= s <= 100)%Q
                      else qd = mkQualityData None None) (map snd [("page1", quality_default); ("page2", quality_default)]%string).
Proof.
  apply (image_based_metadata env_two_pages default_config "doc" [("page1", quality_default); ("page2", quality_default)]%string world0).
  - intros Hx. vm_compute in Hx. discriminate Hx.
  - vm_compute. reflexivity.
Defined.

End PipelineFacts.

(* ------------------------------------------------------------------ *)
(** ** Adaptive timeout and image optimization *)

Module OptimizeFacts.

Import Quality Converter Optimize.

(** The timeout of a page is 180, 120 or 90 seconds and never grows with
    the quality score: a page of lower quality gets at least the timeout of
    a page of higher quality. With quality assessment disabled, or when
    the page's quality statistics could not be computed (score 50), it is
    120. *)
Theorem adaptive_timeout_antitone (cfg : Config) (qd1 qd2 : QualityData) :
  (quality_score_of qd1 <= quality_score_of qd2)%Q ->
  get_adaptive_timeout cfg qd2 <= get_adaptive_timeout cfg qd1 /\
  (get_adaptive_timeout cfg qd1 = 180 \/ get_adaptive_timeout cfg qd1 = 120 \/
   get_adaptive_timeout cfg qd1 = 90) /\
  (enable_quality_assessment cfg = false -> get_adaptive_timeout cfg qd1 = 120) /\
  (forall p, gray_stats p = None -> get_adaptive_timeout cfg (assess_image_quality p) = 120).
Proof.
  intros Hle. unfold get_adaptive_timeout.
  split; [|split; [|split]].
  - destruct (enable_quality_assessment cfg); simpl; [|lia].
    destruct (Py.Qltb (quality_score_of qd1) 30) eqn:A1,
             (Py.Qltb (quality_score_of qd2) 30) eqn:A2; try lia;
    destruct (Py.Qltb (quality_score_of qd1) 70) eqn:B1,
             (Py.Qltb (quality_score_of qd2) 70) eqn:B2; try lia;
    repeat match goal with
           | H : Py.Qltb _ _ = true |- _ => apply QualityFacts.Qltb_true in H
           | H : Py.Qltb _ _ = false |- _ => apply QualityFacts.Qltb_false in H
           end;
    exfalso; eapply Qlt_irrefl; eauto using Qle_lt_trans, Qlt_le_trans.
  - destruct (enable_quality_assessment cfg); simpl; [|auto].
    destruct (Py.Qltb _ 30); [auto|]. destruct (Py.Qltb _ 70); auto.
  - intros ->. reflexivity.
  - intros p Hp. unfold assess_image_quality. rewrite Hp.
    destruct (enable_quality_assessment cfg); reflexivity.
Qed.

Lemma adaptive_timeout_antitone_witness :
  get_adaptive_timeout default_config (mkQualityData None (Some 80%Q)) <=
    get_adaptive_timeout default_config (mkQualityData None (Some 20%Q)) /\
  (get_adaptive_timeout default_config (mkQualityData None (Some 20%Q)) = 180 \/
   get_adaptive_timeout default_config (mkQualityData None (Some 20%Q)) = 120 \/
   get_adaptive_timeout default_config (mkQualityData None (Some 20%Q)) = 90) /\
  (enable_quality_assessment default_config = false ->
   get_adaptive_timeout default_config (mkQualityData None (Some 20%Q)) = 120) /\
  (forall p, gray_stats p = None -> get_adaptive_timeout default_config (assess_image_quality p) = 120).
Proof.
  apply adaptive_timeout_antitone. vm_compute. discriminate.
Defined.

(** The timeout of a page and the enhancement the optimizer applies to it
    follow the same quality thresholds: the aggressive enhancement goes with
    the 180 second timeout, the moderate one with 120 seconds and the minimal
    one with 90 seconds, also when quality assessment is disabled. *)
Theorem timeout_matches_enhancement (cfg : Config) (qd : QualityData) :
  get_adaptive_timeout cfg qd =
    match enhancement_for cfg qd with
    | Aggressive => 180
    | Moderate => 120
    | Minimal => 90
    end.
Proof.
  unfold get_adaptive_timeout, enhancement_for.
  destruct (enable_quality_assessment cfg); simpl; [|reflexivity].
  destruct (Py.Qltb _ 30); [reflexivity|]. destruct (Py.Qltb _ 70); reflexivity.
Qed.

(** An image larger than [max_image_size] is resized to dimensions that are
    at most [max_image_size] and at most the original ones. *)
Theorem resized_size_bounds (m w h : Z) :
  0 <= m -> 0 <= w -> 0 <= h -> m < Z.max w h ->
  0 <= fst (resized_size m (w, h)) <= m /\ 0 <= snd (resized_size m (w, h)) <= m /\
  fst (resized_size m (w, h)) <= w /\ snd (resized_size m (w, h)) <= h.
Proof.
  intros Hm Hw Hh Hlt. unfold resized_size, py_int. simpl fst; simpl snd.
  assert (HwM : w <= Z.max w h) by lia. assert (HhM : h <= Z.max w h) by lia.
  destruct (Z.max w h) as [|p|p] eqn:EM; try lia.
  unfold Qdiv, Qmult, Qinv, inject_Z. simpl.
  rewrite !Z.mul_1_r.
  rewrite !Z.quot_div_nonneg by lia.
  repeat split.
  - apply Z.div_pos; lia.
  - apply Z.div_le_upper_bound; nia.
  - apply Z.div_pos; lia.
  - apply Z.div_le_upper_bound; nia.
  - apply Z.div_le_upper_bound; nia.
  - apply Z.div_le_upper_bound; nia.
Qed.

Lemma resized_size_bounds_witness :
  0 <= fst (resized_size 800 (2000, 1000)) <= 800 /\
  0 <= snd (resized_size 800 (2000, 1000)) <= 800 /\
  fst (resized_size 800 (2000, 1000)) <= 2000 /\ snd (resized_size 800 (2000, 1000)) <= 1000.
Proof. apply resized_size_bounds; lia. Defined.

End OptimizeFacts.

(* ------------------------------------------------------------------ *)
(** ** More on the model performance tracker *)

Module TrackerExtra.

Import Tracker Reference.

Lemma sorted_desc_const {A} (key : A -> Q) (l : list A) :
  (forall x, In x l -> key x == 0)%Q -> sorted_desc key l = l.
Proof.
  induction l as [|x l IH]; intros H; simpl; [reflexivity|].
  rewrite IH by (intros; apply H; now right).
  destruct l as [|y l]; simpl; [reflexivity|].
  replace (Qle_bool (key y) (key x)) with true; [reflexivity|].
  symmetry. apply Qle_bool_iff. rewrite (H x), (H y); [apply Qle_refl| |]; simpl; auto.
Qed.

Lemma score_no_success pd model :
  success_count (get_record pd model) = 0 -> (score_model pd model == 0)%Q.
Proof.
  unfold score_model, get_record. destruct (pd !! model) as [data|]; simpl; [|reflexivity].
  intros Hs. destruct (_ =? 0); [reflexivity|]. rewrite Hs.
  unfold Qdiv. rewrite !Qmult_0_l. reflexivity.
Qed.

(** While no candidate has a recorded success (a fresh tracker, or only
    failures so far), the ranking keeps the candidates in the given order. *)
Theorem rankings_keep_order_without_success (pd : gmap string ModelRecord)
    (models : list string) :
  (forall model, In model models -> success_count (get_record pd model) = 0) ->
  get_model_rankings pd models = models.
Proof.
  intros H. unfold get_model_rankings. apply sorted_desc_const.
  intros x Hx. apply score_no_success. now apply H.
Qed.

Lemma rankings_keep_order_without_success_witness :
  get_model_rankings (record_failure ∅ "llava:latest" 1) Converter.default_models
    = Converter.default_models.
Proof.
  apply rankings_keep_order_without_success.
  intros model Hm. unfold record_failure, get_record.
  destruct (decide (model = "llava:latest"%string)) as [->|Hne].
  - rewrite lookup_insert_eq. reflexivity.
  - rewrite lookup_insert_ne by congruence. reflexivity.
Defined.

Lemma score_pos pd model data :
  pd !! model = Some data -> 0 < success_count data -> 0 <= failure_count data ->
  (0 < score_model pd model)%Q.
Proof.
  intros Hd Hs Hf. unfold score_model. rewrite Hd.
  destruct (Z.eqb_spec (success_count data + failure_count data) 0) as [E|_]; [lia|].
  apply Qmult_lt_0_compat.
  - unfold Qdiv. apply Qmult_lt_0_compat; [unfold Qlt; simpl; lia|].
    apply Qinv_lt_0_compat. unfold Qlt; simpl; lia.
  - unfold Qdiv. apply Qmult_lt_0_compat; [reflexivity|]. apply Qinv_lt_0_compat.
    unfold Py.max. destruct (Py.Qltb _ 1) eqn:E; [reflexivity|].
    apply QualityFacts.Qltb_false in E. eapply Qlt_le_trans; [|exact E]. reflexivity.
Qed.

Lemma strongly_sorted_after {A} (R : A -> A -> Prop) (l1 l2 : list A) (b : A) :
  StronglySorted R (l1 ++ b :: l2) -> forall x, In x l2 -> R b x.
Proof.
  induction l1 as [|a l1 IH]; simpl; intros H x Hx.
  - apply StronglySorted_inv in H as [_ H]. rewrite List.Forall_forall in H. now apply H.
  - apply StronglySorted_inv in H as [H _]. now apply IH.
Qed.

(** In a ranking, once a candidate without any recorded success appears,
    no candidate with a recorded success follows it: models that have
    succeeded are always tried before models that never have. *)
Theorem rankings_successful_first (pd : gmap string ModelRecord) (models l1 l2 : list string)
    (b : string) :
  (forall model data, pd !! model = Some data ->
     0 <= success_count data /\ 0 <= failure_count data) ->
  get_model_rankings pd models = l1 ++ b :: l2 ->
  success_count (get_record pd b) = 0 ->
  forall model, In model l2 -> success_count (get_record pd model) = 0.
Proof.
  intros Hnn Hr Hb model Hm.
  pose proof (TrackerFacts.sorted_desc_sorted (score_model pd) models) as Hs.
  fold (get_model_rankings pd models) in Hs. rewrite Hr in Hs.
  apply Sorted_StronglySorted in Hs; [|intros x y z Hxy Hyz; eapply Qle_trans; eauto].
  pose proof (strongly_sorted_after _ _ _ _ Hs model Hm) as Hle. simpl in Hle.
  rewrite (score_no_success pd b Hb) in Hle.
  unfold get_record in *. destruct (pd !! model) as [data|] eqn:Ed; [|reflexivity].
  simpl. destruct (Hnn model data Ed) as [Hs0 Hf0].
  destruct (Z.eq_dec (success_count data) 0) as [E|Hne]; [exact E|].
  exfalso. pose proof (score_pos pd model data Ed ltac:(lia) Hf0) as Hp.
  apply (Qlt_irrefl 0). eapply Qlt_le_trans; eassumption.
Qed.

Lemma rankings_successful_first_witness :
  success_count (get_record pd_one_success "C") = 0.
Proof.
  apply (rankings_successful_first pd_one_success ["B"; "A"; "C"]%string ["A"]%string
           ["C"]%string "B"); [| | |simpl; now left].
  - intros model data Hd. unfold pd_one_success in Hd.
    apply lookup_insert_Some in Hd as [[_ <-]|[_ Hd]]; [simpl; lia|].
    rewrite lookup_empty in Hd. discriminate.
  - vm_compute. reflexivity.
  - vm_compute. reflexivity.
Defined.

End TrackerExtra.

(* ------------------------------------------------------------------ *)
(** * Cache files, stripping and the single-image path *)

Module CacheExtra.

Import Tracker Quality Converter Pipeline Reference.

Lemma list_ascii_of_string_append (a b : string) :
  list_ascii_of_string (String.append a b) = list_ascii_of_string a ++ list_ascii_of_string b.
Proof. induction a as [|c a IH]; simpl; [reflexivity|]. now rewrite IH. Qed.

Lemma append_inj_l (p a b : string) : String.append p a = String.append p b -> a = b.
Proof. induction p as [|c p IH]; simpl; [auto|]. intros H. injection H. exact IH. Qed.

Lemma append_inj_r (a b s : string) : String.append a s = String.append b s -> a = b.
Proof.
  intros H. apply (f_equal list_ascii_of_string) in H.
  rewrite !list_ascii_of_string_append in H. apply app_inv_tail in H.
  rewrite <- (string_of_list_ascii_of_string a), <- (string_of_list_ascii_of_string b).
  now rewrite H.
Qed.

Lemma path_join_inj (dir a b : string) :
  String.prefix "/" a = false -> String.prefix "/" b = false ->
  path_join dir a = path_join dir b -> a = b.
Proof.
  unfold path_join. intros Ha Hb. rewrite Ha, Hb. destruct dir as [|c d]; [auto|].
  destruct (String.eqb _ _); intros H; apply append_inj_l in H; [exact H|].
  now apply append_inj_l in H.
Qed.

Lemma hex_key_file_name (k : string) :
  is_hex_key k = true -> String.prefix "/" (String.append k ".txt") = false.
Proof.
  destruct k as [|c k]; [reflexivity|]. intros H.
  change (is_hex_char c && forallb is_hex_char (list_ascii_of_string k) = true) in H.
  apply andb_true_iff in H as [Hc _].
  change ((if ascii_dec "/" c then String.prefix "" (String.append k ".txt") else false)
          = false).
  destruct (ascii_dec "/" c) as [<-|]; [discriminate Hc|reflexivity].
Qed.

Lemma cache_file_inj (cfg : Config) (k1 k2 : string) :
  is_hex_key k1 = true -> is_hex_key k2 = true ->
  cache_file cfg k1 = cache_file cfg k2 -> k1 = k2.
Proof.
  unfold cache_file. intros H1 H2 H.
  apply path_join_inj in H; [|now apply hex_key_file_name..].
  now apply append_inj_r in H.
Qed.

(** [_save_cached_result] followed by [_get_cached_result] on another key:
    whatever the write does (it succeeds, [open] raises, or the write
    raises midway), saving one page's text never changes what the cache
    returns for a page with a different MD5 key. MD5 keys are lowercase hex
    digests, so their file names hold no [/] and distinct keys name
    distinct files of the cache directory. *)
Theorem cache_other_keys_unchanged (cfg : Config) (write : string -> string -> WriteOutcome)
    (readable : string -> string -> bool) (fs : gmap string string) (k1 k2 text : string) :
  is_hex_key k1 = true -> is_hex_key k2 = true -> k1 <> k2 ->
  get_cached_result cfg readable (save_cached_result cfg write fs k1 text) k2 =
    get_cached_result cfg readable fs k2.
Proof.
  intros H1 H2 Hne. unfold get_cached_result, save_cached_result.
  destruct (enable_caching cfg); simpl; [|reflexivity].
  assert (Hp : cache_file cfg k1 <> cache_file cfg k2)
    by (intros H; apply Hne; now apply (cache_file_inj cfg)).
  destruct (write (cache_file cfg k1) text); [| |];
    rewrite ?lookup_insert_ne by exact Hp; reflexivity.
Qed.

Lemma cache_other_keys_unchanged_witness :
  get_cached_result default_config read_ok
    (save_cached_result default_config write_ok
       (save_cached_result default_config write_ok ∅ "abd" "second page") "abc" "first page")
    "abd" = Some "second page"%string.
Proof.
  rewrite (cache_other_keys_unchanged default_config write_ok read_ok _ "abc" "abd" "first page");
    [vm_compute; reflexivity|reflexivity|reflexivity|discriminate].
Defined.

Lemma drop_spaces_idem (l : list ascii) : Py.drop_spaces (Py.drop_spaces l) = Py.drop_spaces l.
Proof.
  induction l as [|c l IH]; simpl; [reflexivity|].
  destruct (Py.is_space c) eqn:Ec; [exact IH|]. simpl. now rewrite Ec.
Qed.

Lemma drop_spaces_suffix (l : list ascii) : exists p, l = p ++ Py.drop_spaces l.
Proof.
  induction l as [|c l [p Hp]]; simpl; [exists []; reflexivity|].
  destruct (Py.is_space c); [exists (c :: p); simpl; now f_equal|exists []; reflexivity].
Qed.

Lemma drop_spaces_head (l : list ascii) :
  Py.drop_spaces l = [] \/
  exists c l', Py.drop_spaces l = c :: l' /\ Py.is_space c = false.
Proof.
  induction l as [|c l IH]; simpl; [now left|].
  destruct (Py.is_space c) eqn:Ec; [exact IH|]. right. now exists c, l.
Qed.

Lemma strip_list_idem (l : list ascii) :
  let f l := rev (Py.drop_spaces (rev (Py.drop_spaces l))) in f (f l) = f l.
Proof.
  cbv beta zeta.
  set (a := Py.drop_spaces l). set (d := Py.drop_spaces (rev a)).
  assert (Hb : Py.drop_spaces (rev d) = rev d).
  { destruct (drop_spaces_suffix (rev a)) as [p Hp]. fold d in Hp.
    assert (Ha : a = rev d ++ rev p).
    { rewrite <- (rev_involutive a), Hp. apply rev_app_distr. }
    destruct (rev d) as [|c b'] eqn:Erd; [reflexivity|].
    destruct (drop_spaces_head l) as [Hl|[c0 [l' [Hl Hc0]]]];
      fold a in Hl; rewrite Ha in Hl; simpl in Hl; [discriminate|].
    injection Hl as <- _. simpl. now rewrite Hc0. }
  rewrite Hb, rev_involutive. unfold d. now rewrite drop_spaces_idem.
Qed.

Lemma strip_idem (s : string) : Py.strip (Py.strip s) = Py.strip s.
Proof.
  unfold Py.strip. rewrite list_ascii_of_string_of_list_ascii.
  f_equal. apply (strip_list_idem (list_ascii_of_string s)).
Qed.

End CacheExtra.

(* ------------------------------------------------------------------ *)
(** * The vision attempt loop and the local OCR shortcut *)

Module PageExtra.

Import Tracker Quality Converter Pipeline Reference.


Lemma try_vision_model_some E cfg model b qd w t w' :
  try_vision_model E cfg model b qd w = (Ok (Some t), w') -> Py.strip t = t.
Proof.
  unfold try_vision_model.
  destruct (ollama_chat E model b (get_adaptive_timeout cfg qd)) as [rp el fin].
  unfold try_except, bind, log_call, lift_opt, raise, ret, note_success, note_failure, update_tracker.
  cbn [reply elapsed finished_at].
  destruct rp as [|st lines]; [destruct (enable_smart_model_selection cfg); discriminate|].
  destruct (st =? 200); [|destruct (enable_smart_model_selection cfg); discriminate].
  destruct (content_parts lines) as [[|p ps]|];
    [discriminate| |destruct (enable_smart_model_selection cfg); discriminate].
  destruct (Py.truthy (Py.strip (String.concat "" (p :: ps)))); [|discriminate].
  destruct (enable_smart_model_selection cfg); intros H; injection H as <- _;
    apply CacheExtra.strip_idem.
Qed.

Lemma try_models_some E cfg models b qd w t model w' :
  try_models E cfg models b qd w = (Ok (Some (t, model)), w') ->
  In model models /\ Py.strip t = t.
Proof.
  revert w. induction models as [|m ms IH]; intros w; simpl.
  - discriminate.
  - unfold bind at 1.
    destruct (try_vision_model E cfg m b qd w) as [[[t0|]|] w1] eqn:Et.
    + unfold ret. intros H. injection H as <- <- _. split; [now left|].
      eapply try_vision_model_some; exact Et.
    + intros H. destruct (IH w1 H) as [Hin Hs]. split; [now right|exact Hs].
    + discriminate.
Qed.

(** [_process_single_image_advanced]: a non-empty text comes from one of the
    configured fallback models, the method names that model, and the text
    is already stripped. *)
Theorem single_image_text_from_model (E : Env) (cfg : Config) image qd w t method w' :
  process_single_image_advanced E cfg image qd w = (Ok (t, method), w') ->
  t <> ""%string ->
  (exists model, In model (fallback_vision_models cfg) /\
     method = String.append "Advanced Vision OCR (" (String.append model ")")) /\
  Py.strip t = t.
Proof.
  intros H Ht. unfold process_single_image_advanced, try_except in H.
  destruct (save_jpeg E image) as [b|]; simpl in H;
    [|unfold raise, ret in H; injection H as <- _ _; congruence].
  unfold bind at 1, ret at 1 in H.
  destruct (PipelineFacts.get_smart_subset cfg w) as [ms [Hs Hsub]].
  unfold bind at 1 in H. rewrite Hs in H.
  unfold bind at 1 in H.
  destruct (try_models E cfg ms b qd w) as [[[[t0 m0]|]|] w1] eqn:Em.
  - unfold ret in H. injection H as <- <- _.
    destruct (try_models_some E cfg ms b qd w t0 m0 w1 Em) as [Hin Hst].
    split; [|exact Hst]. exists m0. split; [now apply Hsub|reflexivity].
  - unfold ret in H. injection H as <- _ _. congruence.
  - unfold ret in H. injection H as <- _ _. congruence.
Qed.

Lemma single_image_text_from_model_witness :
  (exists model, In model (fallback_vision_models default_config) /\
     "Advanced Vision OCR (llama3.2-vision:latest)"%string =
       String.append "Advanced Vision OCR (" (String.append model ")")) /\
  Py.strip "Hello world" = "Hello world"%string.
Proof.
  apply (single_image_text_from_model env_two_pages default_config "page1"%string no_quality
           world0 "Hello world" "Advanced Vision OCR (llama3.2-vision:latest)"
           (snd (process_single_image_advanced env_two_pages default_config "page1"%string
                   no_quality world0)));
    [vm_compute; reflexivity|discriminate].
Defined.

(** The page loop on a cache miss, with Tesseract enabled: when the local
    OCR text has more than 50 characters after stripping, the page keeps
    it, no vision model is called, the tracker is unchanged and the text is
    saved under the page's MD5 key. *)
Theorem long_local_ocr_skips_vision (E : Env) (cfg : Config) image_data qd w :
  fallback_to_tesseract cfg = true ->
  Py.truthy (default ""%string (get_cached_result cfg (cache_readable E) (files w) (md5_hexdigest E image_data)))
    = false ->
  (50 < String.length (Py.strip (tesseract_text E cfg image_data)))%nat ->
  process_page E cfg (image_data, qd) w =
    (Ok (tesseract_text E cfg image_data, "Traditional OCR (Tesseract)"%string),
     mkWorld (performance_data w)
       (save_cached_result cfg (cache_write E) (files w) (md5_hexdigest E image_data)
          (tesseract_text E cfg image_data))
       (ocr_calls w ++ [CallTesseract image_data])).
Proof.
  intros Hf Hc Hlen. unfold process_page.
  rewrite PipelineFacts.bind_ok with (a := files w) (w1 := w) by reflexivity.
  apply Nat.ltb_lt in Hlen.
  destruct (get_cached_result cfg (cache_readable E) (files w) (md5_hexdigest E image_data)) as [c|];
    simpl in Hc; [rewrite Hc|];
  (rewrite (PipelineFacts.bind_ok _ _ _ _ _
              (PipelineFacts.extract_text_with_tesseract_run E cfg image_data w));
   rewrite Hf; cbv beta; rewrite Hlen;
   destruct (tesseract_text E cfg image_data) as [|c0 s];
     [simpl in Hlen; discriminate|reflexivity]).
Qed.

Lemma long_local_ocr_skips_vision_witness :
  process_page env_long_ocr default_config ("page1", no_quality)%string world0 =
    (Ok (long_text, "Traditional OCR (Tesseract)"%string),
     mkWorld ∅ (save_cached_result default_config write_ok ∅ "page1" long_text)
       [CallTesseract "page1"]).
Proof.
  rewrite (long_local_ocr_skips_vision env_long_ocr default_config "page1" no_quality world0);
    [|reflexivity|vm_compute; reflexivity|vm_compute; lia].
  reflexivity.
Defined.

End PageExtra.

(* ------------------------------------------------------------------ *)
(** * What a run keeps: call log, tracker, cache *)

Module StateExtra.

Import Tracker Quality Converter Pipeline Reference.


(** A relation [R] between the world before and after a computation,
    kept by every run of it. *)
Definition keeps (R : World -> World -> Prop) {A} (c : M A) : Prop :=
  forall w, R w (snd (c w)).

Section Keeps.

Variable R : World -> World -> Prop.
Hypothesis R_refl : forall w, R w w.
Hypothesis R_trans : forall a b c, R a b -> R b c -> R a c.

Lemma keeps_ret {A} (a : A) : keeps R (ret a).
Proof. intros w. apply R_refl. Qed.

Lemma keeps_raise {A} : keeps R (@raise A).
Proof. intros w. apply R_refl. Qed.

Lemma keeps_lift_opt {A} (o : option A) : keeps R (lift_opt o).
Proof. destruct o; [apply keeps_ret|apply keeps_raise]. Qed.

Lemma keeps_read_files : keeps R read_files.
Proof. intros w. apply R_refl. Qed.

Lemma keeps_bind {A B} (c : M A) (k : A -> M B) :
  keeps R c -> (forall a, keeps R (k a)) -> keeps R (bind c k).
Proof.
  intros Hc Hk w. specialize (Hc w). unfold bind.
  destruct (c w) as [[a|] w1]; simpl in *; [|exact Hc].
  eapply R_trans; [exact Hc|apply Hk].
Qed.

Lemma keeps_try {A} (c h : M A) : keeps R c -> keeps R h -> keeps R (try_except c h).
Proof.
  intros Hc Hh w. specialize (Hc w). unfold try_except.
  destruct (c w) as [[a|] w1]; simpl in *; [exact Hc|].
  eapply R_trans; [exact Hc|apply Hh].
Qed.

Lemma keeps_mapM {A B} (f : A -> M B) (l : list A) :
  (forall x, In x l -> keeps R (f x)) -> keeps R (mapM f l).
Proof.
  induction l as [|x l IH]; intros Hf; simpl; [apply keeps_ret|].
  apply keeps_bind; [apply Hf; now left|intros y].
  apply keeps_bind; [apply IH; intros; apply Hf; now right|intros; apply keeps_ret].
Qed.

Section Stage.

Variable E : Env.
Variable cfg : Config.
Hypothesis R_tracker : forall f,
  enable_smart_model_selection cfg = true -> keeps R (update_tracker f).
Hypothesis R_vision : forall model b,
  In model (fallback_vision_models cfg) -> keeps R (log_call (CallVision model b)).

Lemma keeps_note_success model t now : keeps R (note_success cfg model t now).
Proof.
  unfold note_success. destruct (enable_smart_model_selection cfg) eqn:Es;
    [now apply R_tracker|apply keeps_ret].
Qed.

Lemma keeps_note_failure model now : keeps R (note_failure cfg model now).
Proof.
  unfold note_failure. destruct (enable_smart_model_selection cfg) eqn:Es;
    [now apply R_tracker|apply keeps_ret].
Qed.

Lemma keeps_try_vision_model model b qd :
  In model (fallback_vision_models cfg) -> keeps R (try_vision_model E cfg model b qd).
Proof.
  intros Hm. unfold try_vision_model. cbv zeta.
  destruct (ollama_chat E model b (get_adaptive_timeout cfg qd)) as [rp el fin].
  cbn [reply elapsed finished_at].
  apply keeps_try; [|apply keeps_bind; [apply keeps_note_failure|intros; apply keeps_ret]].
  apply keeps_bind; [now apply R_vision|intros _].
  destruct rp as [|st lines]; [apply keeps_raise|].
  destruct (st =? 200);
    [|apply keeps_bind; [apply keeps_note_failure|intros; apply keeps_ret]].
  apply keeps_bind; [apply keeps_lift_opt|intros [|p ps]]; [apply keeps_ret|].
  destruct (Py.truthy _); [|apply keeps_ret].
  apply keeps_bind; [apply keeps_note_success|intros; apply keeps_ret].
Qed.

Lemma keeps_try_models models b qd :
  (forall model, In model models -> In model (fallback_vision_models cfg)) ->
  keeps R (try_models E cfg models b qd).
Proof.
  induction models as [|m ms IH]; intros Hms; simpl; [apply keeps_ret|].
  apply keeps_bind; [apply keeps_try_vision_model, Hms; now left|intros [t|]];
    [apply keeps_ret|apply IH; intros; apply Hms; now right].
Qed.

Lemma keeps_smart_bind {B} (k : list string -> M B) :
  (forall models, (forall model, In model models -> In model (fallback_vision_models cfg)) ->
     keeps R (k models)) ->
  keeps R (bind (get_smart_model_selection cfg) k).
Proof.
  intros Hk w. destruct (PipelineFacts.get_smart_subset cfg w) as [ms [Hs Hsub]].
  unfold bind. rewrite Hs. now apply Hk.
Qed.

Lemma keeps_single_image image qd : keeps R (process_single_image_advanced E cfg image qd).
Proof.
  unfold process_single_image_advanced. apply keeps_try; [|apply keeps_ret].
  apply keeps_bind; [apply keeps_lift_opt|intros b].
  apply keeps_smart_bind. intros ms Hms.
  apply keeps_bind; [now apply keeps_try_models|intros [[t m]|]; apply keeps_ret].
Qed.

Lemma keeps_single_segment seg qd : keeps R (process_single_segment_advanced E cfg seg qd).
Proof.
  unfold process_single_segment_advanced. apply keeps_try; [|apply keeps_ret].
  apply keeps_bind; [apply keeps_lift_opt|intros b].
  apply keeps_smart_bind. intros ms Hms.
  apply keeps_bind; [now apply keeps_try_models|intros [[t m]|]; apply keeps_ret].
Qed.

Lemma keeps_segmentation image qd :
  keeps R (process_image_with_segmentation_advanced E cfg image qd).
Proof.
  unfold process_image_with_segmentation_advanced. apply keeps_try; [|apply keeps_ret].
  destruct (img_size E image) as [wd ht].
  apply keeps_bind; [apply keeps_lift_opt|intros boxes].
  assert (Hm : forall segs, keeps R (mapM (fun seg => process_single_segment_advanced E cfg seg qd) segs))
    by (intros; apply keeps_mapM; intros; apply keeps_single_segment).
  destruct (_ && _);
    [unfold process_segments_parallel_advanced|unfold process_segments_sequential_advanced];
    (apply keeps_try; [|apply keeps_ret]); (apply keeps_bind; [apply Hm|intros texts]);
    [destruct (pool_timed_out E _); [apply keeps_raise|]|]; apply keeps_ret.
Qed.

Lemma keeps_vision_stage image_data qd :
  keeps R (process_image_with_advanced_vision_ocr E cfg image_data qd).
Proof.
  unfold process_image_with_advanced_vision_ocr. apply keeps_try; [|apply keeps_ret].
  apply keeps_bind; [apply keeps_lift_opt|intros image].
  destruct (img_size E image) as [wd ht].
  destruct (_ <? _); [apply keeps_segmentation|apply keeps_single_image].
Qed.

Section Page.

Hypothesis R_save : forall key text,
  keeps R (update_files (fun fs => save_cached_result cfg (cache_write E) fs key text)).
Hypothesis R_tesseract : forall d,
  fallback_to_tesseract cfg = true -> keeps R (log_call (CallTesseract d)).

Lemma keeps_extract image_data : keeps R (extract_text_with_tesseract E cfg image_data).
Proof.
  unfold extract_text_with_tesseract. destruct (fallback_to_tesseract cfg) eqn:Ef;
    simpl; [|apply keeps_ret].
  apply keeps_bind; [now apply R_tesseract|intros; apply keeps_ret].
Qed.

Lemma keeps_process_page page : keeps R (process_page E cfg page).
Proof.
  destruct page as [d q]. unfold process_page.
  apply keeps_bind; [apply keeps_read_files|intros fs]. cbv zeta.
  destruct (get_cached_result cfg _ fs _) as [c|];
    [destruct (Py.truthy c); [apply keeps_ret|]|];
    (apply keeps_bind; [apply keeps_extract|intros tt];
     apply keeps_bind;
       [destruct (_ && _); [apply keeps_ret|apply keeps_vision_stage]|intros [pt pm]];
     apply keeps_bind; [destruct (Py.truthy pt); [apply R_save|apply keeps_ret]|];
     intros; apply keeps_ret).
Qed.

Lemma keeps_process_pages total k pages : keeps R (process_pages E cfg total k pages).
Proof.
  revert k. induction pages as [|[d q] ps IH]; intros k; cbn [process_pages]; [apply keeps_ret|].
  apply keeps_bind; [apply keeps_process_page|intros [pt pm]].
  apply keeps_bind; [apply IH|intros [[a b] c]]. apply keeps_ret.
Qed.

Lemma keeps_convert file_data : keeps R (convert E cfg file_data).
Proof.
  unfold convert. destruct (String.eqb _ _); [apply keeps_lift_opt|].
  unfold process_image_based_pdf_advanced, process_image_based_with_metadata.
  apply keeps_bind; [|intros [res md]; apply keeps_ret].
  apply keeps_bind; [apply keeps_lift_opt|intros pages].
  apply keeps_bind; [apply keeps_process_pages|intros [[a b] c]]. apply keeps_ret.
Qed.

End Page.
End Stage.
End Keeps.

Lemma universal_newlines_cr_free (n : nat) (l : list ascii) :
  (length l <= n)%nat -> ~ In "013"%char (universal_newlines l).
Proof.
  revert l. induction n as [|n IH]; intros l Hl;
    (destruct l as [|c l]; [simpl; tauto|]); [simpl in Hl; lia|].
  simpl in Hl.
  destruct (ascii_dec c "013"%char) as [->|Hc].
  - destruct l as [|c2 l2]; [simpl; intros [H|[]]; discriminate|].
    destruct (ascii_dec c2 "010"%char) as [->|Hc2].
    + simpl. intros [H|H]; [discriminate|]. revert H. apply IH. simpl in Hl. lia.
    + replace (universal_newlines ("013"%char :: c2 :: l2))
        with ("010"%char :: universal_newlines (c2 :: l2))
        by (destruct c2 as [[] [] [] [] [] [] [] []]; try reflexivity; contradiction).
      intros [H|H]; [discriminate|]. revert H. apply IH. lia.
  - replace (universal_newlines (c :: l)) with (c :: universal_newlines l)
      by (destruct c as [[] [] [] [] [] [] [] []]; try reflexivity; contradiction).
    intros [H|H]; [congruence|]. revert H. apply IH. lia.
Qed.

Lemma read_text_idem (t : string) : read_text (read_text t) = read_text t.
Proof.
  unfold read_text at 1 2. rewrite list_ascii_of_string_of_list_ascii.
  rewrite CacheFacts.universal_newlines_no_cr; [reflexivity|].
  apply (universal_newlines_cr_free _ _ (le_n _)).
Qed.

Lemma universal_newlines_cons (c : ascii) (l : list ascii) :
  exists c' l', universal_newlines (c :: l) = c' :: l'.
Proof.
  destruct (ascii_dec c "013"%char) as [->|Hc].
  - destruct l as [|c2 l2]; [eexists _, _; reflexivity|].
    destruct c2 as [[] [] [] [] [] [] [] []]; eexists _, _; reflexivity.
  - exists c, (universal_newlines l).
    destruct c as [[] [] [] [] [] [] [] []]; try reflexivity; contradiction.
Qed.

Lemma truthy_read_text (t : string) : Py.truthy (read_text t) = Py.truthy t.
Proof.
  destruct t as [|c s]; [reflexivity|]. unfold read_text.
  change (list_ascii_of_string (String c s)) with (c :: list_ascii_of_string s).
  destruct (universal_newlines_cons c (list_ascii_of_string s)) as [c' [l' ->]].
  reflexivity.
Qed.

Lemma cached_read_text (cfg : Config) readable fs key c :
  get_cached_result cfg readable fs key = Some c -> read_text c = c.
Proof.
  unfold get_cached_result. destruct (negb _); [discriminate|].
  destruct (fs !! cache_file cfg key) as [s|]; simpl; [|discriminate].
  destruct (readable _ s); [|discriminate].
  intros H. injection H as <-. apply read_text_idem.
Qed.

Lemma vision_stage_files E cfg image_data qd w :
  files (snd (process_image_with_advanced_vision_ocr E cfg image_data qd w)) = files w.
Proof.
  apply (keeps_vision_stage (fun w w' => files w' = files w)).
  - reflexivity.
  - intros a b c H1 H2. congruence.
  - intros f _ w0. reflexivity.
  - intros m b _ w0. reflexivity.
Qed.

Lemma page_tail (cfg : Config) write key (pt pm : string) w2 t m w1 :
  bind (if Py.truthy pt then update_files (fun fs' => save_cached_result cfg write fs' key pt)
        else ret tt) (fun _ => ret (pt, pm)) w2 = (Ok (t, m), w1) ->
  t = pt /\ (Py.truthy pt = true -> files w1 = save_cached_result cfg write (files w2) key pt).
Proof.
  destruct (Py.truthy pt); unfold bind, update_files, ret; simpl; intros H;
    injection H as <- _ <-; split; easy.
Qed.

(** With caching enabled, once a page has produced a non-empty text whose
    cache file can be written and read back, the same image bytes are
    answered from the cache in the world that run left: the text comes
    back read with universal newlines, the method is "Cached Result", and
    nothing else happens. *)
Theorem repeated_page_served_from_cache (E : Env) (cfg : Config) image_data qd qd' w t method w1 :
  enable_caching cfg = true ->
  process_page E cfg (image_data, qd) w = (Ok (t, method), w1) ->
  Py.truthy t = true ->
  cache_write E (cache_file cfg (md5_hexdigest E image_data)) t = Written ->
  cache_readable E (cache_file cfg (md5_hexdigest E image_data)) t = true ->
  process_page E cfg (image_data, qd') w1 = (Ok (read_text t, "Cached Result"%string), w1).
Proof.
  intros Hc Hp Ht Hw Hr.
  assert (Hk : get_cached_result cfg (cache_readable E) (files w1) (md5_hexdigest E image_data)
               = Some (read_text t)).
  { unfold process_page in Hp.
    rewrite PipelineFacts.bind_ok with (a := files w) (w1 := w) in Hp by reflexivity.
    cbv zeta in Hp.
    assert (Hsave : files w1 = save_cached_result cfg (cache_write E) (files w)
                                 (md5_hexdigest E image_data) t ->
                    get_cached_result cfg (cache_readable E) (files w1) (md5_hexdigest E image_data)
                    = Some (read_text t)).
    { intros ->. now apply CacheFacts.get_after_written_save. }
    destruct (get_cached_result cfg (cache_readable E) (files w) (md5_hexdigest E image_data))
      as [c|] eqn:Ec;
      [destruct (Py.truthy c) eqn:Etc;
       [unfold ret in Hp; injection Hp as <- <- <-; rewrite Ec;
        now rewrite (cached_read_text _ _ _ _ _ Ec)|]|];
    apply Hsave;
    rewrite (PipelineFacts.bind_ok _ _ _ _ _
               (PipelineFacts.extract_text_with_tesseract_run E cfg image_data w)) in Hp;
    set (w' := if fallback_to_tesseract cfg then _ else w) in Hp;
    assert (Hw' : files w' = files w) by (unfold w'; destruct (fallback_to_tesseract cfg); reflexivity);
    cbv beta in Hp;
    (destruct (_ && _);
     [rewrite PipelineFacts.bind_ok
        with (a := (tesseract_text E cfg image_data, "Traditional OCR (Tesseract)"%string))
             (w1 := w') in Hp by reflexivity;
      cbv beta iota in Hp; apply page_tail in Hp; destruct Hp as [-> Hf];
      rewrite <- Hw'; now apply Hf
     |destruct (process_image_with_advanced_vision_ocr E cfg image_data qd w')
        as [[[pt pm]|] w3] eqn:Ev;
      [|unfold bind at 1 in Hp; rewrite Ev in Hp; discriminate];
      rewrite (PipelineFacts.bind_ok _ _ _ _ _ Ev) in Hp;
      cbv beta iota in Hp; apply page_tail in Hp; destruct Hp as [-> Hf];
      rewrite <- Hw', <- (vision_stage_files E cfg image_data qd w'), Ev; now apply Hf]). }
  unfold process_page.
  rewrite PipelineFacts.bind_ok with (a := files w1) (w1 := w1) by reflexivity.
  cbv zeta. rewrite Hk, truthy_read_text, Ht. reflexivity.
Qed.

Lemma repeated_page_served_from_cache_witness :
  process_page env_two_pages default_config ("page1", no_quality)%string
    (snd (process_page env_two_pages default_config ("page1", no_quality)%string world0)) =
  (Ok (read_text "Hello world", "Cached Result"%string),
   snd (process_page env_two_pages default_config ("page1", no_quality)%string world0)).
Proof.
  apply (repeated_page_served_from_cache env_two_pages default_config "page1" no_quality
           no_quality world0 "Hello world" "Advanced Vision OCR (llama3.2-vision:latest)");
    [reflexivity|vm_compute; reflexivity|reflexivity|reflexivity|reflexivity].
Defined.

Definition calls_within (cfg : Config) (w w' : World) : Prop :=
  exists l, ocr_calls w' = ocr_calls w ++ l /\ Forall (ocr_call_allowed cfg) l.

(** [convert] only appends OCR calls to the log, and each of them is
    allowed by the configuration: a vision call goes to a model of
    [fallback_vision_models], and pytesseract runs only with
    [fallback_to_tesseract] set. *)
Theorem convert_calls_allowed (E : Env) (cfg : Config) file_data w :
  exists l, ocr_calls (snd (convert E cfg file_data w)) = ocr_calls w ++ l /\
    Forall (ocr_call_allowed cfg) l.
Proof.
  apply (keeps_convert (calls_within cfg)).
  - intros w0. exists []. split; [now rewrite app_nil_r|constructor].
  - intros a b c [l1 [H1 F1]] [l2 [H2 F2]]. exists (l1 ++ l2).
    split; [now rewrite H2, H1, app_assoc|now apply Forall_app].
  - intros f _ w0. exists []. split; [now rewrite app_nil_r|constructor].
  - intros m b Hm w0. exists [CallVision m b]. split; [reflexivity|now constructor].
  - intros k t w0. exists []. split; [now rewrite app_nil_r|constructor].
  - intros d Hf w0. exists [CallTesseract d]. split; [reflexivity|now constructor].
Qed.

(** With smart model selection off, [convert] never changes the model
    performance tracker. *)
Theorem convert_tracker_untouched (E : Env) (cfg : Config) file_data w :
  enable_smart_model_selection cfg = false ->
  performance_data (snd (convert E cfg file_data w)) = performance_data w.
Proof.
  intros Hs.
  apply (keeps_convert (fun w w' => performance_data w' = performance_data w)).
  - reflexivity.
  - intros a b c H1 H2. congruence.
  - intros f H. congruence.
  - intros m b _ w0. reflexivity.
  - intros k t w0. reflexivity.
  - intros d _ w0. reflexivity.
Qed.

(** With caching off, [convert] never writes to the cache directory. *)
Theorem convert_cache_untouched (E : Env) (cfg : Config) file_data w :
  enable_caching cfg = false ->
  files (snd (convert E cfg file_data w)) = files w.
Proof.
  intros Hc.
  apply (keeps_convert (fun w w' => files w' = files w)).
  - reflexivity.
  - intros a b c H1 H2. congruence.
  - intros f _ w0. reflexivity.
  - intros m b _ w0. reflexivity.
  - intros k t w0. unfold save_cached_result. simpl. now rewrite Hc.
  - intros d _ w0. reflexivity.
Qed.

Lemma convert_tracker_untouched_witness :
  performance_data (snd (convert env_two_pages config_plain "doc" pd_one_success_world)) =
  performance_data pd_one_success_world.
Proof.
  apply (convert_tracker_untouched env_two_pages config_plain "doc" pd_one_success_world).
  reflexivity.
Defined.

Lemma convert_cache_untouched_witness :
  files (snd (convert env_two_pages config_plain "doc" world0)) = files world0.
Proof.
  apply (convert_cache_untouched env_two_pages config_plain "doc" world0). reflexivity.
Defined.

End StateExtra.

